(** * Healthcare AR Training API: a shallow embedding of [backend/main.py]

    The FastAPI application of [src/backend/main.py] is embedded handler by
    handler.  Python values are modelled as follows:

    - [str] as [string], [bytes] as [list byte], [int] as [Z];
    - [float] as the kernel's binary64 numbers ([PrimFloat.float]), which is
      the format of a CPython float;
    - a [dict] literal that a handler returns as an association list of JSON
      values, in the order the literal is written;
    - the table [feedback_map] and the model vocabulary [model.names] as
      finite maps ([gmap]);
    - exceptions, the wall clock, the logger and the calls into OpenCV and
      the detection model through a small state-and-exception monad [IO]. *)

From Stdlib Require Import ZArith List Ascii String Floats Lia Bool.
From Stdlib.Strings Require Import Byte.
From stdpp Require Import base option list strings pretty gmap fin_maps.

Set Warnings "-register-all".

Local Open Scope Z_scope.
Local Open Scope string_scope.
Local Open Scope list_scope.

(** ** Python strings *)

Module PyStr.

(** Strings are ASCII text, as the class names of the model's vocabulary
    and the step identifiers are.

    [str.lower]: the letters A..Z move to a..z, every other character is
    kept. *)
Definition lower_ascii (c : ascii) : ascii :=
  let n := nat_of_ascii c in
  if (Nat.leb 65 n && Nat.leb n 90)%bool then ascii_of_nat (n + 32) else c.

Fixpoint lower (s : string) : string :=
  match s with
  | EmptyString => EmptyString
  | String c s' => String (lower_ascii c) (lower s')
  end.

(** [s.startswith(p)] *)
Fixpoint startswith (p s : string) : bool :=
  match p, s with
  | EmptyString, _ => true
  | String _ _, EmptyString => false
  | String a p', String b s' =>
      if Ascii.eqb a b then startswith p' s' else false
  end.

(** [p in s] for two strings: [p] occurs in [s] as a contiguous block. *)
Fixpoint contains (p s : string) : bool :=
  if startswith p s then true
  else match s with
       | EmptyString => false
       | String _ s' => contains p s'
       end.

(** The mathematical reading of [p in s]. *)
Definition Substring (p s : string) : Prop :=
  exists pre post : string, s = pre +:+ p +:+ post.

End PyStr.

(** ** JSON values: what a handler's [dict] is serialised to *)

Inductive json : Type :=
| JNull
| JBool (b : bool)
| JInt (n : Z)
| JFloat (x : float)
| JStr (s : string)
| JList (items : list json)
| JDict (fields : list (string * json)).

(** A Python [dict] with string keys, as the request models declare it. *)
Definition pydict : Type := list (string * json).

(** ** Exceptions, the world and the [IO] monad *)

(** The exceptions the handlers meet.  All three are subclasses of Python's
    [Exception]: [HTTPException] is FastAPI's (a subclass of Starlette's,
    itself a subclass of [Exception]), [KeyError] is raised by a failed
    [dict] subscript, and [LibraryError] stands for whatever OpenCV, NumPy
    or the detection model raise ([cv2.error], [RuntimeError], ...). *)
Inductive Exception : Type :=
| HTTPException (status_code : Z) (detail : string)
| KeyError (key : Z)
| LibraryError (msg : string).

Inductive outcome (A : Type) : Type :=
| Return (a : A)
| Raise (e : Exception).
Arguments Return {A} a.
Arguments Raise {A} e.

(** What the handlers write to the logger.  The f-strings of the source are
    kept as structured records of the values they interpolate. *)
Inductive log_record : Type :=
| DetectedObjects (n : Z) (processing_time : float)
    (* info: "Detected {n} objects in {processing_time:.2f}ms" *)
| DetectionError (e : Exception)
    (* error: "Detection error: {e}" *)
| SessionLogged (session_id : string) (score : Z).
    (* info: "Session: {session_id}, Score: {score}" *)

(** The calls a handler makes outside itself, in the order it makes them. *)
Inductive event : Type :=
| EvImdecode (buf : list byte)
| EvInference
| EvLogInfo (r : log_record)
| EvLogError (r : log_record).

(** The world a handler runs in: [wall n] is what the [n]-th call of
    [time.time()] returns, [reads] counts the calls made so far and [trace]
    lists the outside calls made so far, oldest first. *)
Record World : Type := mkWorld {
  wall : nat -> float;
  reads : nat;
  trace : list event
}.

Definition IO (A : Type) : Type := World -> outcome A * World.

#[global] Instance IO_ret : MRet IO := fun A a w => (Return a, w).
#[global] Instance IO_bind : MBind IO := fun A B k m w =>
  match m w with
  | (Return a, w') => k a w'
  | (Raise e, w') => (Raise e, w')
  end.
#[global] Instance IO_fmap : FMap IO := fun A B f m w =>
  match m w with
  | (Return a, w') => (Return (f a), w')
  | (Raise e, w') => (Raise e, w')
  end.

(** [raise e] *)
Definition raise {A : Type} (e : Exception) : IO A := fun w => (Raise e, w).

(** [try: body except Exception as e: handler(e)] *)
Definition try_except {A : Type} (body : IO A) (handler : Exception -> IO A) : IO A :=
  fun w =>
    match body w with
    | (Return a, w') => (Return a, w')
    | (Raise e, w') => handler e w'
    end.

(** Lifting a library call that returns or raises without touching the world. *)
Definition lift {A : Type} (o : outcome A) : IO A := fun w => (o, w).

Definition emit (ev : event) : IO unit :=
  fun w => (Return tt, mkWorld (wall w) (reads w) (trace w ++ [ev])).

(** [time.time()] *)
Definition time_time : IO float :=
  fun w => (Return (wall w (reads w)), mkWorld (wall w) (S (reads w)) (trace w)).

(** [logger.info(...)], [logger.error(...)] *)
Definition logger_info (r : log_record) : IO unit := emit (EvLogInfo r).
Definition logger_error (r : log_record) : IO unit := emit (EvLogError r).

Definition result_of {A : Type} (m : IO A) (w : World) : outcome A := fst (m w).
Definition world_after {A : Type} (m : IO A) (w : World) : World := snd (m w).

(** ** The request and response models (the pydantic classes) *)

Record Detection : Type := mkDetection {
  class_name : string;
  confidence : float;
  bbox : list float
}.

Record DetectionResponse : Type := mkDetectionResponse {
  detections : list Detection;
  count : Z;
  processing_time_ms : float
}.

Record AICoachRequest : Type := mkAICoachRequest {
  current_step : string;
  duration : float;
  motion_type : string;
  previous_attempts : Z
}.

(** The field [duration] of the source is [session_duration] here, the
    name [duration] being taken by [AICoachRequest]. *)
Record SessionRequest : Type := mkSessionRequest {
  session_id : string;
  user_id : string;
  task : string;
  start_time : string;
  end_time : string;
  session_duration : Z;
  steps : list pydict;
  score : Z;
  metrics : pydict;
  feedback : list pydict
}.

(** [len(l)], a Python [int] *)
Definition len {A : Type} (l : list A) : Z := Z.of_nat (length l).

(** ** The detection model *)

(** One row of a result's [boxes], read the way the loop reads it:
    [cls] is [int(box.cls[0])], [conf] is [float(box.conf[0])] and [xyxy] is
    [box.xyxy[0].tolist()]. *)
Record Box : Type := mkBox {
  cls : Z;
  conf : float;
  xyxy : list float
}.

(** One element of what the model returns: [r.boxes], in emission order. *)
Record Results : Type := mkResults {
  boxes : list Box
}.

Section Handlers.

(** The decoded pixel buffer ([numpy.ndarray]); the handlers never look
    inside it. *)
Context {Image : Type}.

(** A loaded model: [names] is the class vocabulary [model.names] and
    [predict img conf] is the call [model(img, conf=conf, verbose=False)],
    which returns the results or raises. *)
Record Model : Type := mkModel {
  names : gmap Z string;
  predict : Image -> float -> outcome (list Results)
}.

(** [cv2.imdecode(np.frombuffer(contents, np.uint8), cv2.IMREAD_COLOR)]:
    the image, [None] when the buffer is no image OpenCV can read, or an
    error raised by the library. *)
Variable cv2_imdecode : list byte -> outcome (option Image).

(** [str(e)] for a caught exception; what it prints for an
    [HTTPException] is the web framework's business. *)
Variable str : Exception -> string.

(** *** Loading the model at import time *)

(** The module-level block that sets the global [model]:
    [YOLO_AVAILABLE] says whether the imports succeeded and [YOLO] is the
    constructor [YOLO(path)]. *)
Definition load_model (YOLO_AVAILABLE : bool) (YOLO : string -> outcome Model)
  : option Model :=
  if YOLO_AVAILABLE then
    match YOLO "yolov8n.pt" with
    | Return m => Some m
    | Raise _ => None
    end
  else None.

(** The process-wide handle, set once by [load_model] and only read
    afterwards. *)
Variable model : option Model.

(** [model is not None] *)
Definition is_not_None (m : option Model) : bool :=
  match m with Some _ => true | None => false end.

(** The truth value of the handle in [if model] and [if not model]:
    [None] is false, and a model object, which defines neither [__bool__]
    nor [__len__], is true. *)
Definition truthy (m : option Model) : bool :=
  match m with Some _ => true | None => false end.

(** *** GET / and GET /health *)

Definition root : IO json :=
  mret (JDict [
    ("status", JStr "healthy");
    ("service", JStr "Healthcare AR Training API");
    ("version", JStr "1.0.0");
    ("model_loaded", JBool (is_not_None model));
    ("endpoints", JList [JStr "/detect"; JStr "/ai-coach"; JStr "/sessions"; JStr "/health"])
  ]).

Definition health_check : IO json :=
  mret (JDict [
    ("status", JStr "healthy");
    ("model_loaded", JBool (is_not_None model));
    ("model_type", if truthy model then JStr "YOLOv8n" else JNull)
  ]).

(** *** POST /detect *)

(** The allow-list of the class filter. *)
Definition relevant_objects : list string :=
  ["bottle"; "cup"; "person"; "hand"; "book"].

(** [any(obj in class_name.lower() for obj in [...])] *)
Definition is_relevant (class_name : string) : bool :=
  existsb (fun obj => PyStr.contains obj (PyStr.lower class_name)) relevant_objects.

(** [model.names[class_id]]: a [KeyError] when the vocabulary has no such
    class, an [AttributeError] when the handle is [None]. *)
Definition names_getitem (m : option Model) (class_id : Z) : outcome string :=
  match m with
  | None => Raise (LibraryError "AttributeError: 'NoneType' object has no attribute 'names'")
  | Some m =>
      match names m !! class_id with
      | Some name => Return name
      | None => Raise (KeyError class_id)
      end
  end.

(** [model(img, conf=conf, verbose=False)]: a [TypeError] when the handle
    is [None]. *)
Definition model_call (m : option Model) (img : Image) (conf : float)
  : outcome (list Results) :=
  match m with
  | None => Raise (LibraryError "TypeError: 'NoneType' object is not callable")
  | Some m => predict m img conf
  end.

(** The body of the inner loop, for one box: the list [detections] after
    it, or the exception it raises. *)
Definition box_step (detections : list Detection) (box : Box)
  : outcome (list Detection) :=
  let class_id := cls box in
  let confidence := conf box in
  let bbox := xyxy box in
  match names_getitem model class_id with
  | Raise e => Raise e
  | Return class_name =>
      if is_relevant class_name
      then Return (detections ++ [mkDetection class_name confidence bbox])
      else Return detections
  end.

(** [for box in boxes: ...] *)
Fixpoint for_boxes (detections : list Detection) (bs : list Box)
  : outcome (list Detection) :=
  match bs with
  | [] => Return detections
  | box :: rest =>
      match box_step detections box with
      | Raise e => Raise e
      | Return detections' => for_boxes detections' rest
      end
  end.

(** [for r in results: boxes = r.boxes; for box in boxes: ...] *)
Fixpoint for_results (detections : list Detection) (results : list Results)
  : outcome (list Detection) :=
  match results with
  | [] => Return detections
  | r :: rest =>
      match for_boxes detections (boxes r) with
      | Raise e => Raise e
      | Return detections' => for_results detections' rest
      end
  end.

(** The [try] block of [detect_objects]. *)
Definition detect_body (image : list byte) (start_time : float)
  : IO DetectionResponse :=
  let contents := image in
  emit (EvImdecode contents);;
  img ← lift (cv2_imdecode contents);
  match img with
  | None => raise (HTTPException 400 "Invalid image")
  | Some img =>
      emit EvInference;;
      results ← lift (model_call model img 0.5%float);
      detections ← lift (for_results [] results);
      now ← time_time;
      let processing_time := PrimFloat.mul (PrimFloat.sub now start_time) 1000%float in
      logger_info (DetectedObjects (len detections) processing_time);;
      mret (mkDetectionResponse detections (len detections) processing_time)
  end.

(** [detect_objects(image)]; [image] is the uploaded file's content, what
    [await image.read()] returns. *)
Definition detect_objects (image : list byte) : IO DetectionResponse :=
  start_time ← time_time;
  if negb (truthy model)
  then raise (HTTPException 503 "YOLO model not loaded")
  else
    try_except (detect_body image start_time)
      (fun e =>
         logger_error (DetectionError e);;
         raise (HTTPException 500 (str e))).

(** *** POST /ai-coach *)

(** The table built inside [generate_feedback]. *)
Definition feedback_map : gmap string string :=
  list_to_map [
    ("hands_visible", "Great! Keep your hands clearly visible.");
    ("wetting_motion", "Good wetting motion! Cover all surfaces.");
    ("soap_application", "Excellent circular rubbing motion!");
    ("interlace_fingers", "Nice! Make sure fingers are fully interlaced.");
    ("back_of_hands", "Good job! Don't forget both backs.");
    ("thumbs", "Great thumb cleaning! Rotate them well.");
    ("rinse_motion", "Excellent rinsing technique!")
  ].

(** [feedback_map.get(step, "Keep up the good work!")] *)
Definition generate_feedback
    (step : string) (duration : float) (motion_type : string) (attempts : Z)
  : string :=
  default "Keep up the good work!" (feedback_map !! step).

Definition ai_coach (request : AICoachRequest) : IO json :=
  let feedback :=
    generate_feedback
      (current_step request)
      (duration request)
      (motion_type request)
      (previous_attempts request) in
  mret (JDict [
    ("feedback", JStr feedback);
    ("source", JStr "rule_based");
    ("step", JStr (current_step request))
  ]).

(** *** POST /sessions and GET /analytics *)

Definition save_session (session : SessionRequest) : IO json :=
  logger_info (SessionLogged (session_id session) (score session));;
  mret (JDict [
    ("status", JStr "success");
    ("session_id", JStr (session_id session));
    ("message", JStr "Session saved")
  ]).

Definition get_analytics : IO json :=
  mret (JDict [
    ("total_sessions", JInt 0);
    ("average_score", JInt 0);
    ("message", JStr "Analytics endpoint")
  ]).

(** *** The application: routes and a run of requests *)

(** A request that passed the framework's validation of its declared
    shape, by route. *)
Inductive Request : Type :=
| GET_root
| GET_health
| POST_detect (image : list byte)
| POST_ai_coach (request : AICoachRequest)
| POST_sessions (session : SessionRequest)
| GET_analytics.

(** The body FastAPI writes for a [DetectionResponse]. *)
Definition Detection_json (d : Detection) : json :=
  JDict [
    ("class_name", JStr (class_name d));
    ("confidence", JFloat (confidence d));
    ("bbox", JList (map JFloat (bbox d)))
  ].

Definition DetectionResponse_json (r : DetectionResponse) : json :=
  JDict [
    ("detections", JList (map Detection_json (detections r)));
    ("count", JInt (count r));
    ("processing_time_ms", JFloat (processing_time_ms r))
  ].

(** The routing table the decorators build. *)
Definition app (req : Request) : IO json :=
  match req with
  | GET_root => root
  | GET_health => health_check
  | POST_detect image => DetectionResponse_json <$> detect_objects image
  | POST_ai_coach request => ai_coach request
  | POST_sessions session => save_session session
  | GET_analytics => get_analytics
  end.

(** Serving requests one after the other in one process: each gets its
    outcome (a raised [HTTPException] is the error response) and the next
    one runs in the world the previous one left. *)
Fixpoint serve (reqs : list Request) (w : World) : list (outcome json) * World :=
  match reqs with
  | [] => ([], w)
  | req :: rest =>
      let '(o, w') := app req w in
      let '(os, w'') := serve rest w' in
      (o :: os, w'')
  end.

End Handlers.

(** ** Reading the detection loop

    Three list functions in which the properties of the loop are stated. *)

Section Reading.

Context {Image : Type}.

(** The record the loop builds for one raw detection, when the vocabulary
    names its class. *)
Definition record_of (m : @Model Image) (box : Box) : option Detection :=
  name ← names m !! cls box;
  Some (mkDetection name (conf box) (xyxy box)).

(** The raw detections of a model output in emission order: the boxes of
    the first result, then those of the second, and so on, as the two
    nested loops visit them. *)
Definition raw_detections (results : list Results) : list Box :=
  concat (map boxes results).

(** The filter of the loop, on records. *)
Definition kept (all : list Detection) : list Detection :=
  filter (fun d => is_relevant (class_name d)) all.

(** What the handler computes from the two clock readings. *)
Definition elapsed_ms (w : World) : float :=
  PrimFloat.mul (PrimFloat.sub (wall w (S (reads w))) (wall w (reads w))) 1000%float.

(** The world after a failed [try] block that raised [e]. *)
Definition world_after_error (image : list byte) (steps : list event) (e : Exception)
    (w : World) : World :=
  mkWorld (wall w) (S (reads w))
    (trace w ++ EvImdecode image :: steps ++ [EvLogError (DetectionError e)]).

End Reading.

(** ** Signs of binary64 numbers

    Predicates on the specification-level image ([spec_float]) of a
    [float], used to state what the sign of an elapsed time is. *)

Module Binary64.

(** Zero of either sign, a positive number or plus infinity. *)
Definition SF_nonneg (x : spec_float) : Prop :=
  match x with
  | S754_zero _ | S754_infinity false | S754_finite false _ _ => True
  | _ => False
  end.

(** Neither an infinity nor a NaN. *)
Definition SF_finite (x : spec_float) : Prop :=
  match x with
  | S754_zero _ | S754_finite _ _ _ => True
  | _ => False
  end.

(** A number (not a NaN) whose sign bit is [s]. *)
Definition SF_signed (s : bool) (x : spec_float) : Prop :=
  match x with
  | S754_zero s' | S754_infinity s' | S754_finite s' _ _ => s' = s
  | S754_nan => False
  end.

End Binary64.

(** ** A concrete environment

    A small stand-in for OpenCV, the web framework and a loaded model, on
    which the handlers can be run. *)

Module Demo.

(** Pixels are the bytes that follow a PNG signature. *)
Definition pixels : Type := list byte.

(** A decoder in the manner of [cv2.imdecode]: it raises on an empty
    buffer, answers [None] when the buffer does not start with the four
    bytes [\x89PNG] and the rest of the buffer otherwise. *)
Definition imdecode (buf : list byte) : outcome (option pixels) :=
  match buf with
  | [] => Raise (LibraryError "(-215:Assertion failed) !buf.empty() in function 'imdecode_'")
  | x89 :: x50 :: x4e :: x47 :: rest => Return (Some rest)
  | _ => Return None
  end.

(** [str(e)] as Starlette prints an [HTTPException]: the status code, a
    colon and the detail. *)
Definition str (e : Exception) : string :=
  match e with
  | HTTPException status_code detail => pretty status_code +:+ ": " +:+ detail
  | KeyError key => pretty key
  | LibraryError msg => msg
  end.

(** Part of the COCO vocabulary of YOLOv8n. *)
Definition coco_names : gmap Z string :=
  list_to_map [
    (0, "person"); (2, "car"); (26, "handbag"); (39, "bottle");
    (41, "cup"); (67, "cell phone"); (73, "book")
  ].

Definition car_box : Box :=
  mkBox 2 0.9375%float [10; 20; 110; 220]%float.
Definition bottle_box : Box :=
  mkBox 39 0.875%float [30.5; 40; 60.25; 90]%float.
Definition phone_box : Box :=
  mkBox 67 0.75%float [5; 5; 15; 25]%float.
Definition handbag_box : Box :=
  mkBox 26 0.625%float [200; 210; 260; 300]%float.
Definition unnamed_box : Box :=
  mkBox 99 0.5625%float [0; 0; 1; 1]%float.

(** A model that sees a car, a bottle, a phone and a handbag in every
    image whose first pixel byte is not zero, nothing in an image without
    pixels, and a class outside its vocabulary otherwise. *)
Definition yolo : @Model pixels :=
  mkModel coco_names
    (fun img conf =>
       match img with
       | [] => Return [mkResults []]
       | x00 :: _ => Return [mkResults [bottle_box; unnamed_box]]
       | _ => Return [mkResults [car_box; bottle_box]; mkResults [phone_box; handbag_box]]
       end).

(** Three uploads: a picture, a text file and an empty file. *)
Definition picture : list byte := [x89; x50; x4e; x47; x01; x02; x03].
Definition text_file : list byte := [x68; x65; x6c; x6c; x6f].
Definition empty_file : list byte := [].

(** A clock that advances by a quarter of a second between two readings,
    and one that is set back by a second after the first reading. *)
Definition steady_clock (n : nat) : float :=
  match n with
  | O => 1700000000%float
  | _ => 1700000000.25%float
  end.
Definition clock_set_back (n : nat) : float :=
  match n with
  | O => 1700000000%float
  | _ => 1699999999%float
  end.

Definition steady_world : World := mkWorld steady_clock 0 [].
Definition world_set_back : World := mkWorld clock_set_back 0 [].

(** A session whose fields make no sense together: it ends before it
    starts, has a negative duration, no steps and a score of a million. *)
Definition odd_session : SessionRequest :=
  mkSessionRequest "s-42" "u-7" "handwash"
    "2024-05-02T10:00:00" "2024-05-01T09:00:00" (-5)
    [] 1000000 [] [].

(** What [/detect] answers for [picture] under the steady clock, and the
    world it leaves. *)
Definition bottle_detection : Detection :=
  mkDetection "bottle" 0.875%float [30.5; 40; 60.25; 90]%float.
Definition handbag_detection : Detection :=
  mkDetection "handbag" 0.625%float [200; 210; 260; 300]%float.
Definition picture_response : DetectionResponse :=
  mkDetectionResponse [bottle_detection; handbag_detection] 2 250%float.
Definition picture_world : World :=
  mkWorld steady_clock 2
    [EvImdecode picture; EvInference; EvLogInfo (DetectedObjects 2 250%float)].

(** A constructor [YOLO(path)] that finds no weights. *)
Definition no_weights (path : string) : outcome (@Model pixels) :=
  Raise (LibraryError ("No such file: " +:+ path)).

End Demo.

(** ** Further vocabulary

    Definitions for the properties of the code beyond the ones above: the
    patch of the loader, the requests that read the clock, worlds that
    differ in their logs only, two more predicates on binary64 numbers and
    more of the concrete environment. *)

(** *** The loader patch of the start-up block *)

Section TorchLoad.

(** Python objects passed to [torch.load] and what it returns; [PyFalse] is
    the object [False]. *)
Context {PyObj Loaded : Type}.
Variable PyFalse : PyObj.


End TorchLoad.

(** Whether a request's handler reads the clock: only [/detect] does. *)
Definition reads_clock (req : Request) : bool :=
  match req with
  | POST_detect _ => true
  | _ => false
  end.

(** Two worlds with the same clock, read the same number of times; their
    logs may differ. *)
Definition same_clock (w1 w2 : World) : Prop :=
  wall w1 = wall w2 /\ reads w1 = reads w2.

Module DemoMore.

(** A picture whose first pixel byte is zero: the demo model sees a bottle
    and then a class its vocabulary does not name. *)
Definition dark_picture : list byte := [x89; x50; x4e; x47; x00; x10].

(** What the demo model emits for [Demo.picture], and for [dark_picture]. *)
Definition picture_results : list Results :=
  [mkResults [Demo.car_box; Demo.bottle_box];
   mkResults [Demo.phone_box; Demo.handbag_box]].
Definition dark_results : list Results :=
  [mkResults [Demo.bottle_box; Demo.unnamed_box]].

(** The answer to [Demo.picture] when the clock is set back. *)
Definition set_back_response : DetectionResponse :=
  mkDetectionResponse [Demo.bottle_detection; Demo.handbag_detection] 2 (-1000)%float.
Definition set_back_world : World :=
  mkWorld Demo.clock_set_back 2
    [EvImdecode Demo.picture; EvInference;
     EvLogInfo (DetectedObjects 2 (-1000)%float)].

End DemoMore.

(** *** More signs of binary64 numbers *)

Module Binary64Order.

(** Anything but a NaN. *)
Definition SF_number (x : spec_float) : Prop :=
  match x with
  | S754_nan => False
  | _ => True
  end.

(** Zero of either sign, a negative number or minus infinity. *)
Definition SF_nonpos (x : spec_float) : Prop :=
  match x with
  | S754_zero _ | S754_infinity true | S754_finite true _ _ => True
  | _ => False
  end.

End Binary64Order.

(** * Properties *)

(** ** Substring search *)

Module PyStrFacts.
Import PyStr.

Lemma startswith_iff (p s : string) :
  startswith p s = true <-> exists post : string, s = p +:+ post.
Proof.
  revert s. induction p as [|a p IH]; intros s; simpl.
  - split; [intros _; by exists s | done].
  - destruct s as [|b s].
    + split; [done | intros [post H]; discriminate H].
    + destruct (Ascii.eqb_spec a b) as [->|Hne].
      * rewrite IH. split; intros [post H]; exists post.
        -- by rewrite H.
        -- by injection H.
      * split; [done | intros [post H]; injection H; intros _ E; by destruct Hne].
Qed.

Lemma contains_iff (p s : string) : contains p s = true <-> Substring p s.
Proof.
  unfold Substring. induction s as [|b s IH].
  - simpl. destruct (startswith p "") eqn:E.
    + apply startswith_iff in E as [post E].
      split; [intros _; by exists "", post | done].
    + split; [done |]. intros (pre & post & H).
      destruct pre; [|discriminate H]. simpl in H.
      assert (startswith p "" = true) by (apply startswith_iff; eauto).
      congruence.
  - cbn [contains]. destruct (startswith p (String b s)) eqn:E.
    + apply startswith_iff in E as [post E].
      split; [intros _; by exists "", post | done].
    + rewrite IH. split.
      * intros (pre & post & ->). by exists (String b pre), post.
      * intros (pre & post & H). destruct pre as [|c pre].
        -- simpl in H.
           assert (startswith p (String b s) = true) by (apply startswith_iff; eauto).
           congruence.
        -- injection H as _ H. by exists pre, post.
Qed.

End PyStrFacts.

(** ** Binary64 arithmetic: the sign of a difference and of a product *)

Module Binary64Facts.
Import Binary64.
Local Open Scope Z_scope.

Lemma digits2_pos_size (m : positive) : digits2_pos m = Pos.size m.
Proof. induction m; simpl; congruence. Qed.

Lemma shr_1_nonneg (mrs : shr_record) : 0 <= shr_m mrs -> 0 <= shr_m (shr_1 mrs).
Proof.
  destruct mrs as [m r s]. simpl. intros Hm.
  destruct m as [|[p|p|]|p]; simpl; lia.
Qed.

Lemma iter_pos_invariant {A : Type} (P : A -> Prop) (f : A -> A) (n : positive) (x : A) :
  (forall y, P y -> P (f y)) -> P x -> P (SpecFloat.iter_pos f n x).
Proof.
  intros Hf. revert x. induction n as [n IH|n IH|]; intros x Hx; simpl; auto.
Qed.

Lemma shr_fexp_nonneg (m e : Z) (l : location) :
  0 <= m -> 0 <= shr_m (fst (shr_fexp prec emax m e l)).
Proof.
  intros Hm. unfold shr_fexp, shr.
  assert (H0 : 0 <= shr_m (shr_record_of_loc m l)) by (by destruct l as [|[]]).
  destruct (fexp prec emax (Zdigits2 m + e) - e) as [|p|p]; simpl; try done.
  apply (iter_pos_invariant (fun r => 0 <= shr_m r)); [apply shr_1_nonneg | done].
Qed.

Lemma round_nearest_even_nonneg (m : Z) (l : location) :
  0 <= m -> 0 <= round_nearest_even m l.
Proof.
  intros Hm. destruct l as [|[]]; simpl; try done; [destruct (Z.even m) |]; lia.
Qed.

Lemma binary_round_aux_signed (sx : bool) (mx ex : Z) (lx : location) :
  0 <= mx -> SF_signed sx (binary_round_aux prec emax sx mx ex lx).
Proof.
  intros Hm. unfold binary_round_aux.
  pose proof (shr_fexp_nonneg mx ex lx Hm) as H1.
  destruct (shr_fexp prec emax mx ex lx) as [mrs' e']. simpl in H1.
  pose proof (shr_fexp_nonneg _ e' loc_Exact
                (round_nearest_even_nonneg _ (loc_of_shr_record mrs') H1)) as H2.
  destruct (shr_fexp prec emax _ e' loc_Exact) as [mrs'' e'']. simpl in H2.
  destruct (shr_m mrs'') as [|p|p]; simpl; [done | | lia].
  by destruct (e'' <=? emax - prec).
Qed.

Lemma binary_round_signed (sx : bool) (mx : positive) (ex : Z) :
  SF_signed sx (binary_round prec emax sx mx ex).
Proof.
  unfold binary_round.
  destruct (shl_align mx ex _) as [mz ez].
  by apply binary_round_aux_signed.
Qed.

Lemma SF_signed_nonneg (x : spec_float) : SF_signed false x -> SF_nonneg x.
Proof. destruct x as [s|s| |s m e]; simpl; try done; by intros ->. Qed.

Lemma binary_normalize_nonneg (m e : Z) :
  0 <= m -> SF_nonneg (binary_normalize prec emax m e false).
Proof.
  intros Hm. destruct m as [|p|p]; simpl; [done | | lia].
  apply SF_signed_nonneg, binary_round_signed.
Qed.

Lemma SFmul_nonneg (x : spec_float) (m : positive) (e : Z) :
  SF_nonneg x -> SF_nonneg (SF64mul x (S754_finite false m e)).
Proof.
  destruct x as [s|[]| |[] mx ex]; simpl; try done. intros _.
  apply SF_signed_nonneg. by apply binary_round_aux_signed.
Qed.

Lemma Pos_iter_xO (d m : positive) : Zpos (Pos.iter xO m d) = Zpos m * 2 ^ Zpos d.
Proof.
  induction d as [|d IH] using Pos.peano_ind.
  - simpl. lia.
  - rewrite Pos.iter_succ, Pos2Z.inj_xO, IH, Pos2Z.inj_succ, Z.pow_succ_r by lia. ring.
Qed.

Lemma shl_align_value (m : positive) (e ez : Z) :
  ez <= e -> Zpos (fst (shl_align m e ez)) = Zpos m * 2 ^ (e - ez).
Proof.
  intros Hle. unfold shl_align.
  destruct (ez - e) as [|d|d] eqn:Hd; simpl; try lia.
  - replace (e - ez) with 0 by lia. lia.
  - rewrite Pos_iter_xO. f_equal. f_equal. lia.
Qed.

Lemma digits2_pos_bounds (m : positive) :
  2 ^ (Zpos (digits2_pos m) - 1) <= Zpos m < 2 ^ Zpos (digits2_pos m).
Proof.
  rewrite digits2_pos_size.
  pose proof (Pos.size_gt m) as Hgt. pose proof (Pos.size_le m) as Hle.
  apply Pos2Z.pos_lt_pos in Hgt. apply Pos2Z.pos_le_pos in Hle.
  rewrite Pos2Z.inj_pow in Hgt, Hle.
  split; [| exact Hgt].
  replace (Zpos (Pos.size m)) with (Z.succ (Zpos (Pos.size m) - 1)) in Hle by lia.
  rewrite Z.pow_succ_r in Hle by lia. lia.
Qed.

Lemma bounded_digits (m : positive) (e : Z) :
  bounded prec emax m e = true ->
  -1074 <= e /\ Zpos (digits2_pos m) <= 53 /\ (-1074 < e -> Zpos (digits2_pos m) = 53).
Proof.
  unfold bounded, canonical_mantissa, fexp, SpecFloat.emin, prec, emax.
  intros H. apply andb_prop in H as [H _]. apply Z.eqb_eq in H. lia.
Qed.

Lemma aligned_lt (m1 m2 : positive) (e1 e2 : Z) :
  bounded prec emax m1 e1 = true -> bounded prec emax m2 e2 = true ->
  e1 < e2 -> Zpos m1 < Zpos m2 * 2 ^ (e2 - e1).
Proof.
  intros H1 H2 Hlt.
  apply bounded_digits in H1 as (Hmin1 & Hd1 & _).
  apply bounded_digits in H2 as (_ & _ & Hd2). specialize (Hd2 ltac:(lia)).
  pose proof (digits2_pos_bounds m1) as [_ Hm1].
  pose proof (digits2_pos_bounds m2) as [Hm2 _]. rewrite Hd2 in Hm2.
  assert (Zpos m1 < 2 ^ 53).
  { eapply Z.lt_le_trans; [exact Hm1 |]. apply Z.pow_le_mono_r; lia. }
  assert (2 ^ 1 <= 2 ^ (e2 - e1)) by (apply Z.pow_le_mono_r; lia).
  change (2 ^ (53 - 1)) with 4503599627370496 in Hm2.
  change (2 ^ 53) with 9007199254740992 in H.
  change (2 ^ 1) with 2 in H0. nia.
Qed.

Lemma SFsub_nonneg (x y : spec_float) :
  valid_binary x = true -> valid_binary y = true ->
  SF_finite x -> SF_finite y ->
  SFleb x y = true -> SF_nonneg (SF64sub y x).
Proof.
  destruct x as [sx|sx| |sx mx ex], y as [sy|sy| |sy my ey]; simpl; try done.
  - intros _ _ _ _ _. by destruct sy, sx.
  - intros _ _ _ _. unfold SFleb. simpl. by destruct sy.
  - intros _ _ _ _. unfold SFleb. simpl. by destruct sx.
  - intros Hx Hy _ _. unfold SFleb, SFcompare. intros Hle.
    apply binary_normalize_nonneg.
    rewrite !shl_align_value by lia.
    destruct sx, sy; simpl; try done.
    + (* both negative: ey <= ex *)
      destruct (Z.compare_spec ex ey) as [->|Hlt|Hgt]; try done.
      * rewrite Z.min_id, Z.sub_diag. simpl.
        change (Pos.compare_cont Eq mx my) with (Pos.compare mx my) in Hle.
        destruct (Pos.compare_spec mx my) as [->|?|?]; simpl in Hle; try done; lia.
      * pose proof (aligned_lt my mx ey ex Hy Hx Hgt).
        rewrite Z.min_l by lia. rewrite Z.sub_diag. lia.
    + (* x negative, y nonnegative *)
      assert (0 < 2 ^ (ey - Z.min ey ex)) by (apply Z.pow_pos_nonneg; lia).
      assert (0 < 2 ^ (ex - Z.min ey ex)) by (apply Z.pow_pos_nonneg; lia).
      nia.
    + (* both nonnegative: ex <= ey *)
      destruct (Z.compare_spec ex ey) as [->|Hlt|Hgt]; try done.
      * rewrite Z.min_id, Z.sub_diag. simpl.
        change (Pos.compare_cont Eq mx my) with (Pos.compare mx my) in Hle.
        destruct (Pos.compare_spec mx my) as [->|?|?]; simpl in Hle; try done; lia.
      * pose proof (aligned_lt mx my ex ey Hx Hy Hlt).
        rewrite Z.min_r by lia. rewrite Z.sub_diag. lia.
Qed.

Lemma is_finite_SF_finite (x : float) :
  PrimFloat.is_finite x = true -> SF_finite (Prim2SF x).
Proof.
  unfold PrimFloat.is_finite, Prim2SF.
  destruct (is_nan x); [done |]. destruct (is_zero x); [done |].
  destruct (is_infinity x); [done |]. intros _.
  destruct (Z.frexp x) as [r exp].
  destruct (shr_fexp prec emax _ _ loc_Exact) as [shr e'].
  by destruct (shr_m shr).
Qed.

Lemma SFleb_zero_nonneg (x : spec_float) :
  SF_nonneg x -> SFleb (S754_zero false) x = true.
Proof. by destruct x as [s|[]| |[] m e]. Qed.

(** The elapsed time the handler computes from two finite clock readings
    that are in order is not negative. *)
Lemma float_elapsed_nonneg (t0 t1 : float) :
  PrimFloat.is_finite t0 = true -> PrimFloat.is_finite t1 = true ->
  PrimFloat.leb t0 t1 = true ->
  PrimFloat.leb 0%float (PrimFloat.mul (PrimFloat.sub t1 t0) 1000%float) = true.
Proof.
  intros Hf0 Hf1 Hle.
  rewrite leb_spec in Hle |- *. rewrite mul_spec, sub_spec.
  change (Prim2SF 0%float) with (S754_zero false).
  replace (Prim2SF 1000%float) with (S754_finite false 8796093022208000 (-43))
    by (by vm_compute).
  apply SFleb_zero_nonneg, SFmul_nonneg, SFsub_nonneg;
    auto using Prim2SF_valid, is_finite_SF_finite.
Qed.

End Binary64Facts.

(** ** The handlers *)

Section Correctness.

Context {Image : Type}.
Variable cv2_imdecode : list byte -> outcome (option Image).
Variable str : Exception -> string.

Local Abbreviation detect_objects := (detect_objects cv2_imdecode str).
Local Abbreviation app := (app cv2_imdecode str).
Local Abbreviation serve := (serve cv2_imdecode str).

(** *** The class filter *)

Lemma is_relevant_iff (name : string) :
  is_relevant name = true <->
  exists obj : string,
    obj ∈ ["bottle"; "cup"; "person"; "hand"; "book"] /\
    PyStr.Substring obj (PyStr.lower name).
Proof.
  unfold is_relevant, relevant_objects. rewrite existsb_exists.
  split; intros (obj & Hin & Hsub); exists obj.
  - split; [by apply list_elem_of_In | by apply PyStrFacts.contains_iff].
  - split; [by apply list_elem_of_In | by apply PyStrFacts.contains_iff].
Qed.

Lemma box_step_named (m : @Model Image) (dets : list Detection) (box : Box) (name : string) :
  names m !! cls box = Some name ->
  box_step (Some m) dets box =
    Return (if is_relevant name
            then dets ++ [mkDetection name (conf box) (xyxy box)]
            else dets).
Proof.
  intros Hname. unfold box_step, names_getitem. rewrite Hname.
  by destruct (is_relevant name).
Qed.

(** C3: the class filter keeps a raw detection exactly when the lowercased
    class name has one of [bottle], [cup], [person], [hand], [book] as a
    substring: the loop body appends the detection's record in that case
    and leaves the list alone otherwise.  In particular "bottle" is kept,
    "car" is dropped and "handbag" is kept (it contains "hand"). *)
Theorem class_filter_is_substring_match :
  (forall name : string,
      is_relevant name = true <->
      exists obj : string,
        obj ∈ ["bottle"; "cup"; "person"; "hand"; "book"] /\
        PyStr.Substring obj (PyStr.lower name))
  /\ (forall (m : @Model Image) (dets : list Detection) (box : Box) (name : string),
      names m !! cls box = Some name ->
      box_step (Some m) dets box =
        Return (if is_relevant name
                then dets ++ [mkDetection name (conf box) (xyxy box)]
                else dets))
  /\ is_relevant "bottle" = true
  /\ is_relevant "car" = false
  /\ is_relevant "handbag" = true.
Proof.
  split; [exact is_relevant_iff |].
  split; [exact box_step_named |].
  by vm_compute.
Qed.

(** *** The feedback table *)

Lemma feedback_map_unknown (step : string) :
  step ∉ ["hands_visible"; "wetting_motion"; "soap_application";
          "interlace_fingers"; "back_of_hands"; "thumbs"; "rinse_motion"] ->
  feedback_map !! step = None.
Proof.
  intros Hstep. unfold feedback_map.
  by apply not_elem_of_list_to_map_1.
Qed.

(** C4: [generate_feedback] is a function of its first argument alone,
    defined on every string: each of the seven step identifiers gets its
    sentence of the table and every other string gets
    "Keep up the good work!". *)
Theorem generate_feedback_total_lookup
    (duration : float) (motion_type : string) (attempts : Z) :
  generate_feedback "hands_visible" duration motion_type attempts
    = "Great! Keep your hands clearly visible."
  /\ generate_feedback "wetting_motion" duration motion_type attempts
    = "Good wetting motion! Cover all surfaces."
  /\ generate_feedback "soap_application" duration motion_type attempts
    = "Excellent circular rubbing motion!"
  /\ generate_feedback "interlace_fingers" duration motion_type attempts
    = "Nice! Make sure fingers are fully interlaced."
  /\ generate_feedback "back_of_hands" duration motion_type attempts
    = "Good job! Don't forget both backs."
  /\ generate_feedback "thumbs" duration motion_type attempts
    = "Great thumb cleaning! Rotate them well."
  /\ generate_feedback "rinse_motion" duration motion_type attempts
    = "Excellent rinsing technique!"
  /\ (forall step : string,
        step ∉ ["hands_visible"; "wetting_motion"; "soap_application";
                "interlace_fingers"; "back_of_hands"; "thumbs"; "rinse_motion"] ->
        generate_feedback step duration motion_type attempts
          = "Keep up the good work!")
  /\ (forall (step : string) (duration' : float) (motion_type' : string) (attempts' : Z),
        generate_feedback step duration motion_type attempts
          = generate_feedback step duration' motion_type' attempts').
Proof.
  repeat (split; [by vm_compute |]).
  split; [| done].
  intros step Hstep. unfold generate_feedback.
  by rewrite (feedback_map_unknown step Hstep).
Qed.

(** *** /ai-coach *)

(** C6: [/ai-coach] answers with the feedback the table has for
    [current_step], the source "rule_based" and the step it was given, and
    leaves the world alone; [duration], [motion_type] and
    [previous_attempts] do not enter the answer.  With "thumbs" the
    feedback is the thumbs sentence, with "unknown_step_xyz" the
    fallback. *)
Theorem ai_coach_keyed_on_step :
  (forall (request : AICoachRequest) (w : World),
      ai_coach request w =
        (Return (JDict [
           ("feedback",
             JStr (default "Keep up the good work!"
                     (feedback_map !! current_step request)));
           ("source", JStr "rule_based");
           ("step", JStr (current_step request))]),
         w))
  /\ (forall (step : string) (d d' : float) (mt mt' : string) (n n' : Z),
        ai_coach (mkAICoachRequest step d mt n)
          = ai_coach (mkAICoachRequest step d' mt' n'))
  /\ (forall (d : float) (mt : string) (n : Z) (w : World),
        result_of (ai_coach (mkAICoachRequest "thumbs" d mt n)) w =
          Return (JDict [
            ("feedback", JStr "Great thumb cleaning! Rotate them well.");
            ("source", JStr "rule_based");
            ("step", JStr "thumbs")]))
  /\ (forall (d : float) (mt : string) (n : Z) (w : World),
        result_of (ai_coach (mkAICoachRequest "unknown_step_xyz" d mt n)) w =
          Return (JDict [
            ("feedback", JStr "Keep up the good work!");
            ("source", JStr "rule_based");
            ("step", JStr "unknown_step_xyz")])).
Proof.
  split; [done |]. split; [done |].
  split; intros d mt n w; by vm_compute.
Qed.

(** *** /sessions and /analytics *)

(** C7: [/sessions] answers every well-typed [SessionRequest] with
    status "success", the [session_id] it was given and the message
    "Session saved"; all it does besides is log the identifier and the
    score.  No field is inspected: a score out of any range, an [end_time]
    before the [start_time] and an empty [steps] list are accepted like
    any other. *)
Theorem save_session_echoes_id (session : SessionRequest) (w : World) :
  save_session session w =
    (Return (JDict [
       ("status", JStr "success");
       ("session_id", JStr (session_id session));
       ("message", JStr "Session saved")]),
     mkWorld (wall w) (reads w)
       (trace w ++ [EvLogInfo (SessionLogged (session_id session) (score session))])).
Proof. reflexivity. Qed.

Lemma serve_app (model : option (@Model Image)) (l1 l2 : list Request) (w : World) :
  serve model (l1 ++ l2) w =
    (fst (serve model l1 w) ++ fst (serve model l2 (snd (serve model l1 w))),
     snd (serve model l2 (snd (serve model l1 w)))).
Proof.
  revert w. induction l1 as [|req l1 IH]; intros w; simpl.
  - by destruct (serve model l2 w).
  - destruct (app model req w) as [o w1]. rewrite IH.
    by destruct (serve model l1 w1).
Qed.

Lemma serve_length (model : option (@Model Image)) (l : list Request) (w : World) :
  length (fst (serve model l w)) = length l.
Proof.
  revert w. induction l as [|req l IH]; intros w; simpl; [done |].
  destruct (app model req w) as [o w1]. specialize (IH w1).
  destruct (serve model l w1). simpl in *. by rewrite IH.
Qed.

(** C8: [/analytics] returns the same body, zero sessions and a zero
    average, in every world, and so after any run of earlier requests,
    whatever sessions they submitted. *)
Theorem analytics_is_constant
    (model : option (@Model Image)) (history : list Request) (w : World) :
  let body := JDict [
    ("total_sessions", JInt 0);
    ("average_score", JInt 0);
    ("message", JStr "Analytics endpoint")] in
  (forall w0 : World, get_analytics w0 = (Return body, w0))
  /\ exists earlier : list (outcome json),
       length earlier = length history /\
       fst (serve model (history ++ [GET_analytics]) w) = earlier ++ [Return body].
Proof.
  split; [done |].
  exists (fst (serve model history w)). split; [apply serve_length |].
  by rewrite serve_app.
Qed.

(** *** / and /health *)

(** C10: [/] and [/health] report the status "healthy" whether or not a
    model is loaded; the handle shows only in [model_loaded], and
    [model_type] of [/health] is "YOLOv8n" when the handle is present and
    null when it is absent. *)
Theorem health_always_reported_healthy (model : option (@Model Image)) (w : World) :
  root model w =
    (Return (JDict [
       ("status", JStr "healthy");
       ("service", JStr "Healthcare AR Training API");
       ("version", JStr "1.0.0");
       ("model_loaded", JBool (bool_decide (is_Some model)));
       ("endpoints",
         JList [JStr "/detect"; JStr "/ai-coach"; JStr "/sessions"; JStr "/health"])]),
     w)
  /\ health_check model w =
    (Return (JDict [
       ("status", JStr "healthy");
       ("model_loaded", JBool (bool_decide (is_Some model)));
       ("model_type",
         match model with Some _ => JStr "YOLOv8n" | None => JNull end)]),
     w).
Proof. by destruct model. Qed.

(** *** /detect without a model *)

(** C2: the handle is absent both when the dependencies are missing and
    when loading the weights raises.  With the handle absent, [/detect]
    raises the 503 error for every upload in every world, having read
    the clock and done nothing else (the trace has no decode and no
    inference), and [/health] succeeds with [model_loaded] false. *)
Theorem detect_unavailable_without_model :
  (forall YOLO : string -> outcome (@Model Image), load_model false YOLO = None)
  /\ (forall (YOLO : string -> outcome (@Model Image)) (e : Exception),
        YOLO "yolov8n.pt" = Raise e -> load_model true YOLO = None)
  /\ (forall (image : list byte) (w : World),
        detect_objects None image w =
          (Raise (HTTPException 503 "YOLO model not loaded"),
           mkWorld (wall w) (S (reads w)) (trace w)))
  /\ (forall w : World,
        health_check (Image := Image) None w =
          (Return (JDict [
             ("status", JStr "healthy");
             ("model_loaded", JBool false);
             ("model_type", JNull)]),
           w)).
Proof.
  split; [done |]. split; [| done].
  intros YOLO e He. unfold load_model. by rewrite He.
Qed.

(** *** The detection loop *)

Lemma kept_app (l1 l2 : list Detection) : kept (l1 ++ l2) = kept l1 ++ kept l2.
Proof. apply filter_app. Qed.

Lemma kept_one (d : Detection) :
  kept [d] = if is_relevant (class_name d) then [d] else [].
Proof.
  unfold kept. rewrite filter_cons, filter_nil.
  by destruct (is_relevant (class_name d)).
Qed.

Lemma box_step_Return (m : @Model Image) (acc dets : list Detection) (box : Box) :
  box_step (Some m) acc box = Return dets <->
  exists d : Detection, record_of m box = Some d /\ dets = acc ++ kept [d].
Proof.
  unfold box_step, names_getitem, record_of.
  destruct (names m !! cls box) as [name|]; simpl.
  - split.
    + intros H. eexists. split; [done |]. rewrite kept_one. simpl.
      destruct (is_relevant name); injection H as <-; by rewrite ?app_nil_r.
    + intros (d & [= <-] & ->). rewrite kept_one. simpl.
      destruct (is_relevant name); by rewrite ?app_nil_r.
  - split; [done | by intros (d & ? & _)].
Qed.

Lemma for_boxes_Return (m : @Model Image) (bs : list Box) (acc dets : list Detection) :
  for_boxes (Some m) acc bs = Return dets <->
  exists all : list Detection,
    Forall2 (fun box d => record_of m box = Some d) bs all /\
    dets = acc ++ kept all.
Proof.
  revert acc. induction bs as [|box bs IH]; intros acc; simpl.
  - split.
    + intros [= <-]. exists []. split; [constructor | by rewrite app_nil_r].
    + intros (all & Hall & ->). inversion Hall; subst. by rewrite app_nil_r.
  - destruct (box_step (Some m) acc box) as [acc'|e] eqn:Hstep.
    + apply box_step_Return in Hstep as (d & Hd & ->). rewrite IH. split.
      * intros (all & Hall & ->). exists (d :: all).
        split; [by constructor |].
        change (d :: all) with ([d] ++ all). by rewrite kept_app, app_assoc.
      * intros (all & Hall & ->). inversion Hall as [|? d' ? all' Hd' Hall']; subst.
        assert (d' = d) as -> by congruence.
        exists all'. split; [done |].
        change (d :: all') with ([d] ++ all'). by rewrite kept_app, app_assoc.
    + split; [done |]. intros (all & Hall & ->).
      inversion Hall as [|? d ? all' Hd Hall']; subst.
      assert (box_step (Some m) acc box = Return (acc ++ kept [d]))
        by (apply box_step_Return; eauto).
      congruence.
Qed.

Lemma for_results_Return
    (m : @Model Image) (results : list Results) (acc dets : list Detection) :
  for_results (Some m) acc results = Return dets <->
  exists all : list Detection,
    Forall2 (fun box d => record_of m box = Some d) (raw_detections results) all /\
    dets = acc ++ kept all.
Proof.
  unfold raw_detections.
  revert acc. induction results as [|r results IH]; intros acc; simpl.
  - split.
    + intros [= <-]. exists []. split; [constructor | by rewrite app_nil_r].
    + intros (all & Hall & ->). inversion Hall; subst. by rewrite app_nil_r.
  - destruct (for_boxes (Some m) acc (boxes r)) as [acc'|e] eqn:Hboxes.
    + apply for_boxes_Return in Hboxes as (all1 & Hall1 & ->). rewrite IH. split.
      * intros (all2 & Hall2 & ->). exists (all1 ++ all2).
        split; [by apply Forall2_app |].
        by rewrite kept_app, app_assoc.
      * intros (all & Hall & ->).
        apply Forall2_app_inv_l in Hall as (k1 & k2 & Hk1 & Hk2 & ->).
        assert (k1 = all1) as ->.
        { clear -Hk1 Hall1. revert k1 Hk1.
          induction Hall1 as [|box d bs l Hd _ IHl]; intros k1 Hk1.
          - by inversion Hk1.
          - inversion Hk1 as [|? d' ? l' Hd' Hl']; subst.
            f_equal; [congruence | by apply IHl]. }
        exists k2. split; [done |]. by rewrite kept_app, app_assoc.
    + split; [done |]. intros (all & Hall & ->).
      apply Forall2_app_inv_l in Hall as (k1 & k2 & Hk1 & Hk2 & ->).
      assert (for_boxes (Some m) acc (boxes r) = Return (acc ++ kept k1))
        by (apply for_boxes_Return; eauto).
      congruence.
Qed.

(** *** /detect with a model *)

(** The handler with a loaded model, case by case. *)
Lemma detect_objects_loaded (m : @Model Image) (image : list byte) (w : World) :
  detect_objects (Some m) image w =
    match cv2_imdecode image with
    | Raise e =>
        (Raise (HTTPException 500 (str e)), world_after_error image [] e w)
    | Return None =>
        let e := HTTPException 400 "Invalid image" in
        (Raise (HTTPException 500 (str e)), world_after_error image [] e w)
    | Return (Some img) =>
        match predict m img 0.5%float with
        | Raise e =>
            (Raise (HTTPException 500 (str e)),
             world_after_error image [EvInference] e w)
        | Return results =>
            match for_results (Some m) [] results with
            | Raise e =>
                (Raise (HTTPException 500 (str e)),
                 world_after_error image [EvInference] e w)
            | Return dets =>
                (Return (mkDetectionResponse dets (len dets) (elapsed_ms w)),
                 mkWorld (wall w) (S (S (reads w)))
                   (trace w ++
                      [EvImdecode image; EvInference;
                       EvLogInfo (DetectedObjects (len dets) (elapsed_ms w))]))
            end
        end
    end.
Proof.
  unfold detect_objects, detect_body, world_after_error, elapsed_ms,
    try_except, mbind, IO_bind, mret, IO_ret, lift, raise, emit, time_time,
    logger_info, logger_error, model_call.
  destruct w as [wl rd tr]. simpl.
  destruct (cv2_imdecode image) as [[img|]|e]; simpl;
    rewrite <- ?app_assoc; simpl; try reflexivity.
  destruct (predict m img 0.5%float) as [results|e]; simpl;
    rewrite <- ?app_assoc; simpl; try reflexivity.
  destruct (for_results (Some m) [] results) as [dets|e]; simpl;
    rewrite <- ?app_assoc; simpl; reflexivity.
Qed.

(** A successful [/detect], read backwards. *)
Lemma detect_objects_Return
    (model : option (@Model Image)) (image : list byte) (w w' : World)
    (r : DetectionResponse) :
  detect_objects model image w = (Return r, w') ->
  exists (m : @Model Image) (img : Image) (results : list Results) (dets : list Detection),
    model = Some m /\
    cv2_imdecode image = Return (Some img) /\
    predict m img 0.5%float = Return results /\
    for_results (Some m) [] results = Return dets /\
    r = mkDetectionResponse dets (len dets) (elapsed_ms w).
Proof.
  destruct model as [m|]; [| discriminate].
  rewrite detect_objects_loaded.
  destruct (cv2_imdecode image) as [[img|]|e] eqn:Hdec; try discriminate.
  destruct (predict m img 0.5%float) as [results|e] eqn:Hpred; try discriminate.
  destruct (for_results (Some m) [] results) as [dets|e] eqn:Hloop; try discriminate.
  intros [= <- <-]. by exists m, img, results, dets.
Qed.

(** The status codes [/detect] can fail with: 503 and 500, and no other. *)
Lemma detect_objects_Raise
    (model : option (@Model Image)) (image : list byte) (w : World) (e : Exception) :
  result_of (detect_objects model image) w = Raise e ->
  e = HTTPException 503 "YOLO model not loaded" \/
  exists cause : Exception, e = HTTPException 500 (str cause).
Proof.
  unfold result_of. destruct model as [m|].
  - rewrite detect_objects_loaded. intros H. right.
    destruct (cv2_imdecode image) as [[img|]|e1]; simpl in H.
    + destruct (predict m img 0.5%float) as [results|e2]; simpl in H.
      * destruct (for_results (Some m) [] results) as [dets|e3]; simpl in H;
          [discriminate H |].
        injection H as <-. eauto.
      * injection H as <-. eauto.
    + injection H as <-. eauto.
    + injection H as <-. eauto.
  - intros [= <-]. by left.
Qed.

(** With a model loaded, an upload that decodes, an inference that returns
    and a vocabulary that names every class the model emitted, [/detect]
    succeeds. *)
Lemma detect_objects_succeeds
    (m : @Model Image) (image : list byte) (w : World)
    (img : Image) (results : list Results) :
  cv2_imdecode image = Return (Some img) ->
  predict m img 0.5%float = Return results ->
  Forall (fun box => is_Some (names m !! cls box)) (raw_detections results) ->
  exists (r : DetectionResponse) (w' : World),
    detect_objects (Some m) image w = (Return r, w').
Proof.
  intros Hdec Hpred Hnames.
  assert (exists all : list Detection,
             Forall2 (fun box d => record_of m box = Some d) (raw_detections results) all)
    as [all Hall].
  { induction Hnames as [|box bs [name Hname] _ [all IH]].
    - exists []. constructor.
    - exists (mkDetection name (conf box) (xyxy box) :: all).
      constructor; [| exact IH]. unfold record_of. by rewrite Hname. }
  assert (Hloop : for_results (Some m) [] results = Return ([] ++ kept all))
    by (apply for_results_Return; eauto).
  rewrite detect_objects_loaded, Hdec, Hpred, Hloop. eauto.
Qed.

(** An upload OpenCV cannot decode, with a model loaded: the 400 error
    raised inside the [try] block is caught by its own [except Exception]
    clause, logged and replaced by a 500 error. *)
Lemma detect_objects_undecodable (m : @Model Image) (image : list byte) (w : World) :
  cv2_imdecode image = Return None ->
  detect_objects (Some m) image w =
    (Raise (HTTPException 500 (str (HTTPException 400 "Invalid image"))),
     world_after_error image [] (HTTPException 400 "Invalid image") w).
Proof. intros H. by rewrite detect_objects_loaded, H. Qed.

(** An upload on which OpenCV raises (an empty buffer), with a model
    loaded: a 500 error as well. *)
Lemma detect_objects_decode_error
    (m : @Model Image) (image : list byte) (w : World) (e : Exception) :
  cv2_imdecode image = Raise e ->
  detect_objects (Some m) image w =
    (Raise (HTTPException 500 (str e)), world_after_error image [] e w).
Proof. intros H. by rewrite detect_objects_loaded, H. Qed.

(** C9: in a successful [/detect] response the detections are, in the
    model's emission order, the records of the raw detections that pass the
    class filter: every raw detection has one record, [detections] is the
    list of these records filtered in place, and hence a subsequence of
    it. *)
Theorem detections_keep_emission_order
    (model : option (@Model Image)) (image : list byte) (w w' : World)
    (r : DetectionResponse) :
  detect_objects model image w = (Return r, w') ->
  exists (m : @Model Image) (img : Image) (results : list Results) (all : list Detection),
    model = Some m /\
    cv2_imdecode image = Return (Some img) /\
    predict m img 0.5%float = Return results /\
    Forall2 (fun box d => record_of m box = Some d) (raw_detections results) all /\
    detections r = filter (fun d => is_relevant (class_name d)) all /\
    sublist (detections r) all.
Proof.
  intros H.
  apply detect_objects_Return in H as (m & img & results & dets & -> & Hdec & Hpred & Hloop & ->).
  apply for_results_Return in Hloop as (all & Hall & ->).
  exists m, img, results, all. simpl.
  repeat (split; [done |]). apply sublist_filter.
Qed.

(** C5: every successful [/detect] response has [count] equal to the
    length of [detections] (zero when nothing is retained), and its
    [processing_time_ms] is the difference of the two wall-clock readings of
    the request times 1000; it is not negative whenever the two readings
    are finite and the second is not earlier than the first. *)
Theorem detection_response_invariants
    (model : option (@Model Image)) (image : list byte) (w w' : World)
    (r : DetectionResponse) :
  detect_objects model image w = (Return r, w') ->
  count r = Z.of_nat (length (detections r))
  /\ (detections r = [] -> count r = 0)
  /\ processing_time_ms r =
       PrimFloat.mul (PrimFloat.sub (wall w (S (reads w))) (wall w (reads w))) 1000%float
  /\ (PrimFloat.is_finite (wall w (reads w)) = true ->
      PrimFloat.is_finite (wall w (S (reads w))) = true ->
      PrimFloat.leb (wall w (reads w)) (wall w (S (reads w))) = true ->
      PrimFloat.leb 0%float (processing_time_ms r) = true).
Proof.
  intros H.
  apply detect_objects_Return in H as (m & img & results & dets & _ & _ & _ & _ & ->).
  simpl. split; [done |]. split; [by intros -> |]. split; [done |].
  apply Binary64Facts.float_elapsed_nonneg.
Qed.

End Correctness.

(** ** The handlers in the concrete environment *)

(** C1 (the code does otherwise): with a model loaded, an upload that
    OpenCV cannot decode is answered with status 500, not 400: the 400
    error raised for it inside the [try] block is caught by the block's own
    [except Exception] clause and replaced.  An empty upload, on which the
    decoder raises, is answered with status 500 as well. *)
Theorem undecodable_upload_answered_with_500 :
  result_of (detect_objects Demo.imdecode Demo.str (Some Demo.yolo) Demo.text_file)
    Demo.steady_world
  = Raise (HTTPException 500 "400: Invalid image")
  /\ result_of (detect_objects Demo.imdecode Demo.str (Some Demo.yolo) Demo.empty_file)
       Demo.steady_world
     = Raise (HTTPException 500
                "(-215:Assertion failed) !buf.empty() in function 'imdecode_'")
  /\ trace (world_after
              (detect_objects Demo.imdecode Demo.str (Some Demo.yolo) Demo.text_file)
              Demo.steady_world)
     = [EvImdecode Demo.text_file;
        EvLogError (DetectionError (HTTPException 400 "Invalid image"))].
Proof. by vm_compute. Qed.

(** Against C5 as it is stated: with the clock set back between the two
    readings of a request, the response is a success whose
    [processing_time_ms] is negative. *)
Lemma processing_time_negative_when_clock_set_back :
  detect_objects Demo.imdecode Demo.str (Some Demo.yolo) Demo.picture Demo.world_set_back
  = (Return (mkDetectionResponse
               [Demo.bottle_detection; Demo.handbag_detection] 2 (-1000)%float),
     mkWorld Demo.clock_set_back 2
       [EvImdecode Demo.picture; EvInference;
        EvLogInfo (DetectedObjects 2 (-1000)%float)])
  /\ PrimFloat.leb 0%float (-1000)%float = false.
Proof. by vm_compute. Qed.

(** C5 on [picture] under the steady clock. *)
Lemma detection_response_invariants_witness :
  detect_objects Demo.imdecode Demo.str (Some Demo.yolo) Demo.picture Demo.steady_world
  = (Return Demo.picture_response, Demo.picture_world)
  /\ count Demo.picture_response = 2
  /\ PrimFloat.leb 0%float (processing_time_ms Demo.picture_response) = true.
Proof.
  assert (H : detect_objects Demo.imdecode Demo.str (Some Demo.yolo) Demo.picture
                Demo.steady_world
              = (Return Demo.picture_response, Demo.picture_world))
    by (vm_compute; reflexivity).
  split; [exact H |].
  destruct (detection_response_invariants Demo.imdecode Demo.str _ _ _ _ _ H)
    as (Hcount & _ & _ & Hnonneg).
  split; [exact Hcount |].
  apply Hnonneg; vm_compute; reflexivity.
Defined.

(** C9 on [picture]: a car, a bottle, a phone and a handbag are emitted,
    the bottle and the handbag are returned, in that order. *)
Lemma detections_keep_emission_order_witness :
  detect_objects Demo.imdecode Demo.str (Some Demo.yolo) Demo.picture Demo.steady_world
  = (Return Demo.picture_response, Demo.picture_world)
  /\ exists (m : @Model Demo.pixels) (img : Demo.pixels) (results : list Results)
       (all : list Detection),
       Some Demo.yolo = Some m /\
       Demo.imdecode Demo.picture = Return (Some img) /\
       predict m img 0.5%float = Return results /\
       Forall2 (fun box d => record_of m box = Some d) (raw_detections results) all /\
       detections Demo.picture_response = filter (fun d => is_relevant (class_name d)) all /\
       sublist (detections Demo.picture_response) all.
Proof.
  assert (H : detect_objects Demo.imdecode Demo.str (Some Demo.yolo) Demo.picture
                Demo.steady_world
              = (Return Demo.picture_response, Demo.picture_world))
    by (vm_compute; reflexivity).
  split; [exact H |].
  exact (detections_keep_emission_order Demo.imdecode Demo.str _ _ _ _ _ H).
Defined.

(** C3 on the handbag the model emits. *)
Lemma class_filter_is_substring_match_witness :
  names Demo.yolo !! cls Demo.handbag_box = Some "handbag"
  /\ box_step (Some Demo.yolo) [Demo.bottle_detection] Demo.handbag_box
     = Return [Demo.bottle_detection; Demo.handbag_detection].
Proof.
  assert (H : names Demo.yolo !! cls Demo.handbag_box = Some "handbag")
    by (vm_compute; reflexivity).
  split; [exact H |].
  destruct (@class_filter_is_substring_match Demo.pixels) as (_ & Hstep & _).
  rewrite (Hstep Demo.yolo [Demo.bottle_detection] Demo.handbag_box "handbag" H).
  vm_compute; reflexivity.
Defined.

(** C4 on a step that is not in the table. *)
Lemma generate_feedback_total_lookup_witness :
  ("unknown_step_xyz" ∉ ["hands_visible"; "wetting_motion"; "soap_application";
                         "interlace_fingers"; "back_of_hands"; "thumbs"; "rinse_motion"])
  /\ generate_feedback "unknown_step_xyz" 12.5%float "circular" 3
     = "Keep up the good work!".
Proof.
  assert (H : "unknown_step_xyz" ∉
                ["hands_visible"; "wetting_motion"; "soap_application";
                 "interlace_fingers"; "back_of_hands"; "thumbs"; "rinse_motion"]).
  { apply (bool_decide_unpack _). vm_compute. exact I. }
  split; [exact H |].
  destruct (generate_feedback_total_lookup 12.5%float "circular" 3)
    as (_ & _ & _ & _ & _ & _ & _ & Hother & _).
  exact (Hother "unknown_step_xyz" H).
Defined.

(** C2 on a process whose weights file is missing. *)
Lemma detect_unavailable_without_model_witness :
  Demo.no_weights "yolov8n.pt" = Raise (LibraryError "No such file: yolov8n.pt")
  /\ load_model true Demo.no_weights = None
  /\ result_of (detect_objects Demo.imdecode Demo.str
                  (load_model true Demo.no_weights) Demo.picture) Demo.steady_world
     = Raise (HTTPException 503 "YOLO model not loaded").
Proof.
  assert (H : Demo.no_weights "yolov8n.pt" = Raise (LibraryError "No such file: yolov8n.pt"))
    by reflexivity.
  split; [exact H |].
  destruct (@detect_unavailable_without_model Demo.pixels Demo.imdecode Demo.str)
    as (_ & Hload & Hdetect & _).
  rewrite (Hload Demo.no_weights _ H).
  split; [reflexivity |].
  unfold result_of. by rewrite Hdetect.
Defined.

(** [/sessions] on a session whose fields make no sense together. *)
Example save_session_odd_session :
  result_of (save_session Demo.odd_session) Demo.steady_world
  = Return (JDict [
      ("status", JStr "success");
      ("session_id", JStr "s-42");
      ("message", JStr "Session saved")]).
Proof. reflexivity. Qed.

(** A run of requests against a process without a model: the session is
    acknowledged, the analytics stay at zero, [/detect] is refused and
    [/health] still answers. *)
Example serve_without_model :
  fst (serve Demo.imdecode Demo.str None
         [POST_sessions Demo.odd_session; GET_analytics;
          POST_detect Demo.picture; GET_health]
         Demo.steady_world)
  = [Return (JDict [("status", JStr "success"); ("session_id", JStr "s-42");
                    ("message", JStr "Session saved")]);
     Return (JDict [("total_sessions", JInt 0); ("average_score", JInt 0);
                    ("message", JStr "Analytics endpoint")]);
     Raise (HTTPException 503 "YOLO model not loaded");
     Return (JDict [("status", JStr "healthy"); ("model_loaded", JBool false);
                    ("model_type", JNull)])].
Proof. reflexivity. Qed.

(** * Further properties of the code *)

(** ** More on strings and on binary64 arithmetic *)

Module PyStrMore.
Import PyStr.

Lemma append_cons (x : ascii) (a b : string) :
  String x a +:+ b = String x (a +:+ b).
Proof. reflexivity. Qed.

Lemma append_assoc (a b c : string) : (a +:+ b) +:+ c = a +:+ (b +:+ c).
Proof.
  induction a as [|x a IH]; [done |]. by rewrite !append_cons, IH.
Qed.

Lemma length_append (a b : string) :
  String.length (a +:+ b) = (String.length a + String.length b)%nat.
Proof.
  induction a as [|x a IH]; [done |]. rewrite append_cons. simpl. by rewrite IH.
Qed.

Lemma lower_append (a b : string) : lower (a +:+ b) = lower a +:+ lower b.
Proof.
  induction a as [|x a IH]; [done |].
  rewrite append_cons. simpl. by rewrite append_cons, IH.
Qed.

Lemma lower_length (a : string) : String.length (lower a) = String.length a.
Proof. induction a as [|x a IH]; simpl; [done | by rewrite IH]. Qed.

Lemma Substring_length (p s : string) :
  Substring p s -> (String.length p <= String.length s)%nat.
Proof. intros (pre & post & ->). rewrite !length_append. lia. Qed.

Lemma Substring_extend (p s pre post : string) :
  Substring p s -> Substring p (pre +:+ s +:+ post).
Proof.
  intros (a & b & ->). exists (pre +:+ a), (b +:+ post).
  by rewrite !append_assoc.
Qed.

End PyStrMore.

Module Binary64OrderFacts.
Import Binary64 Binary64Order Binary64Facts.
Local Open Scope Z_scope.

Lemma SF_signed_number (s : bool) (x : spec_float) : SF_signed s x -> SF_number x.
Proof. by destruct x. Qed.

Lemma SF_signed_nonpos (x : spec_float) : SF_signed true x -> SF_nonpos x.
Proof. destruct x as [s|s| |s m e]; simpl; try done; by intros ->. Qed.

Lemma binary_normalize_number (m e : Z) :
  SF_number (binary_normalize prec emax m e false).
Proof.
  destruct m as [|p|p]; simpl; [done | |];
    eapply SF_signed_number, binary_round_signed.
Qed.

Lemma binary_normalize_nonpos (m e : Z) :
  m <= 0 -> SF_nonpos (binary_normalize prec emax m e false).
Proof.
  intros Hm. destruct m as [|p|p]; simpl; [done | lia |].
  apply SF_signed_nonpos, binary_round_signed.
Qed.

Lemma SFsub_number (x y : spec_float) :
  SF_finite x -> SF_finite y -> SF_number (SF64sub y x).
Proof.
  destruct x as [sx|sx| |sx mx ex], y as [sy|sy| |sy my ey]; simpl; try done.
  - intros _ _. by destruct sy, sx.
  - intros _ _. apply binary_normalize_number.
Qed.

Lemma SFmul_number (x : spec_float) (m : positive) (e : Z) :
  SF_number x -> SF_number (SF64mul x (S754_finite false m e)).
Proof.
  destruct x as [s|s| |s mx ex]; simpl; try done. intros _.
  eapply SF_signed_number. by apply binary_round_aux_signed.
Qed.

Lemma SFmul_nonpos (x : spec_float) (m : positive) (e : Z) :
  SF_nonpos x -> SF_nonpos (SF64mul x (S754_finite false m e)).
Proof.
  destruct x as [s|[]| |[] mx ex]; simpl; try done. intros _.
  apply SF_signed_nonpos. by apply binary_round_aux_signed.
Qed.

Lemma SFcompare_refl (x : spec_float) : SF_number x -> SFcompare x x = Some Eq.
Proof.
  destruct x as [s|[]| |[] m e]; simpl; intros H; try done;
    rewrite Z.compare_refl;
    change (Pos.compare_cont Eq m m) with (Pos.compare m m);
    by rewrite Pos.compare_refl.
Qed.

Lemma SF_number_not_nan (x : float) :
  SF_number (Prim2SF x) -> PrimFloat.is_nan x = false.
Proof.
  intros H. unfold PrimFloat.is_nan. rewrite FloatAxioms.eqb_spec. unfold SFeqb.
  by rewrite SFcompare_refl.
Qed.

Lemma SFsub_diag (x : spec_float) : SF_finite x -> SF64sub x x = S754_zero false.
Proof.
  destruct x as [s|s| |s m e]; simpl; try done.
  - by destruct s.
  - intros _. unfold SF64sub, SFsub. by rewrite Z.sub_diag.
Qed.

Lemma SFleb_nonpos_zero (x : spec_float) :
  SF_nonpos x -> SFleb x (S754_zero false) = true.
Proof. by destruct x as [s|[]| |[] m e]. Qed.

Lemma SFsub_nonpos (x y : spec_float) :
  valid_binary x = true -> valid_binary y = true ->
  SF_finite x -> SF_finite y ->
  SFleb y x = true -> SF_nonpos (SF64sub y x).
Proof.
  destruct x as [sx|sx| |sx mx ex], y as [sy|sy| |sy my ey]; simpl; try done.
  - intros _ _ _ _ _. by destruct sy, sx.
  - intros _ _ _ _. unfold SFleb. simpl. by destruct sy.
  - intros _ _ _ _. unfold SFleb. simpl. by destruct sx.
  - intros Hx Hy _ _. unfold SFleb, SFcompare. intros Hle.
    apply binary_normalize_nonpos.
    rewrite !shl_align_value by lia.
    destruct sx, sy; simpl; try done.
    + destruct (Z.compare_spec ey ex) as [->|Hlt|Hgt]; try done.
      * rewrite Z.min_id, Z.sub_diag. simpl.
        change (Pos.compare_cont Eq my mx) with (Pos.compare my mx) in Hle.
        destruct (Pos.compare_spec my mx) as [->|?|?]; simpl in Hle; try done; lia.
      * pose proof (aligned_lt mx my ex ey Hx Hy Hgt).
        rewrite Z.min_r by lia. rewrite Z.sub_diag. lia.
    + assert (0 < 2 ^ (ey - Z.min ey ex)) by (apply Z.pow_pos_nonneg; lia).
      assert (0 < 2 ^ (ex - Z.min ey ex)) by (apply Z.pow_pos_nonneg; lia).
      nia.
    + destruct (Z.compare_spec ey ex) as [->|Hlt|Hgt]; try done.
      * rewrite Z.min_id, Z.sub_diag. simpl.
        change (Pos.compare_cont Eq my mx) with (Pos.compare my mx) in Hle.
        destruct (Pos.compare_spec my mx) as [->|?|?]; simpl in Hle; try done; lia.
      * pose proof (aligned_lt my mx ey ex Hy Hx Hlt).
        rewrite Z.min_l by lia. rewrite Z.sub_diag. lia.
Qed.

Lemma Prim2SF_thousand : Prim2SF 1000%float = S754_finite false 8796093022208000 (-43).
Proof. by vm_compute. Qed.

Lemma float_elapsed_number (t0 t1 : float) :
  PrimFloat.is_finite t0 = true -> PrimFloat.is_finite t1 = true ->
  PrimFloat.is_nan (PrimFloat.mul (PrimFloat.sub t1 t0) 1000%float) = false.
Proof.
  intros Hf0 Hf1. apply SF_number_not_nan.
  rewrite mul_spec, sub_spec, Prim2SF_thousand.
  apply SFmul_number, SFsub_number; by apply is_finite_SF_finite.
Qed.

Lemma float_elapsed_zero (t : float) :
  PrimFloat.is_finite t = true ->
  PrimFloat.mul (PrimFloat.sub t t) 1000%float = 0%float.
Proof.
  intros Hf. apply Prim2SF_inj.
  rewrite mul_spec, sub_spec, Prim2SF_thousand.
  rewrite SFsub_diag by (by apply is_finite_SF_finite). reflexivity.
Qed.

Lemma float_elapsed_nonpos (t0 t1 : float) :
  PrimFloat.is_finite t0 = true -> PrimFloat.is_finite t1 = true ->
  PrimFloat.leb t1 t0 = true ->
  PrimFloat.leb (PrimFloat.mul (PrimFloat.sub t1 t0) 1000%float) 0%float = true.
Proof.
  intros Hf0 Hf1 Hle.
  rewrite leb_spec in Hle |- *. rewrite mul_spec, sub_spec, Prim2SF_thousand.
  change (Prim2SF 0%float) with (S754_zero false).
  apply SFleb_nonpos_zero, SFmul_nonpos, SFsub_nonpos;
    auto using Prim2SF_valid, is_finite_SF_finite.
Qed.

End Binary64OrderFacts.

(** ** More on the handlers *)

Section Further.

Context {Image : Type}.
Variable cv2_imdecode : list byte -> outcome (option Image).
Variable str : Exception -> string.

Local Abbreviation detect_objects := (detect_objects cv2_imdecode str).
Local Abbreviation app := (app cv2_imdecode str).
Local Abbreviation serve := (serve cv2_imdecode str).

(** *** The class filter *)

(** X10: a class name that contains a retained class name is retained. *)
Theorem is_relevant_extends (name pre post : string) :
  is_relevant name = true -> is_relevant (pre +:+ name +:+ post) = true.
Proof.
  rewrite !is_relevant_iff. intros (obj & Hobj & Hsub). exists obj.
  split; [done |]. rewrite !PyStrMore.lower_append.
  by apply PyStrMore.Substring_extend.
Qed.

(** X11: a class name of fewer than three characters is dropped. *)
Theorem is_relevant_needs_three_characters (name : string) :
  (String.length name < 3)%nat -> is_relevant name = false.
Proof.
  intros Hlen. apply not_true_is_false. rewrite is_relevant_iff.
  intros (obj & Hobj & Hsub). apply PyStrMore.Substring_length in Hsub.
  rewrite PyStrMore.lower_length in Hsub.
  repeat (apply elem_of_cons in Hobj as [->|Hobj]; [simpl in Hsub; lia |]).
  by apply elem_of_nil in Hobj.
Qed.

(** *** The loop over the boxes *)

Lemma for_boxes_app (model : option (@Model Image)) (acc : list Detection) (l1 l2 : list Box) :
  for_boxes model acc (l1 ++ l2) =
    match for_boxes model acc l1 with
    | Return acc' => for_boxes model acc' l2
    | Raise e => Raise e
    end.
Proof.
  revert acc. induction l1 as [|box l1 IH]; intros acc; simpl; [done |].
  destruct (box_step model acc box); [apply IH | done].
Qed.

(** The two nested loops are one loop over the boxes in emission order. *)
Lemma for_results_flat
    (model : option (@Model Image)) (acc : list Detection) (results : list Results) :
  for_results model acc results = for_boxes model acc (raw_detections results).
Proof.
  unfold raw_detections. revert acc.
  induction results as [|r results IH]; intros acc; simpl; [done |].
  rewrite for_boxes_app. destruct (for_boxes model acc (boxes r)); [apply IH | done].
Qed.

Lemma named_boxes_records (m : @Model Image) (bs : list Box) :
  Forall (fun box => is_Some (names m !! cls box)) bs <->
  exists all : list Detection, Forall2 (fun box d => record_of m box = Some d) bs all.
Proof.
  split.
  - induction 1 as [|box bs [name Hname] _ [all IH]].
    + exists []. constructor.
    + exists (mkDetection name (conf box) (xyxy box) :: all).
      constructor; [| exact IH]. unfold record_of. by rewrite Hname.
  - intros [all Hall]. induction Hall as [|box d bs all Hd _ IH]; constructor; [| exact IH].
    unfold record_of in Hd. destruct (names m !! cls box); [eauto | discriminate Hd].
Qed.

Lemma for_boxes_unnamed
    (m : @Model Image) (acc : list Detection) (pre post : list Box) (box : Box) :
  Forall (fun b => is_Some (names m !! cls b)) pre ->
  names m !! cls box = None ->
  for_boxes (Some m) acc (pre ++ box :: post) = Raise (KeyError (cls box)).
Proof.
  intros Hpre Hbox. rewrite for_boxes_app.
  apply named_boxes_records in Hpre as [all Hall].
  assert (for_boxes (Some m) acc pre = Return (acc ++ kept all)) as ->
    by (apply for_boxes_Return; eauto).
  simpl. unfold box_step, names_getitem. by rewrite Hbox.
Qed.

(** *** When /detect succeeds and how it fails *)

(** X1: [/detect] succeeds exactly when a model is loaded, the upload decodes
    to an image, the inference returns and the vocabulary names the class
    of every box the model emitted. *)
Theorem detect_succeeds_iff
    (model : option (@Model Image)) (image : list byte) (w : World) :
  (exists (r : DetectionResponse) (w' : World),
      detect_objects model image w = (Return r, w'))
  <->
  (exists (m : @Model Image) (img : Image) (results : list Results),
      model = Some m /\
      cv2_imdecode image = Return (Some img) /\
      predict m img 0.5%float = Return results /\
      Forall (fun box => is_Some (names m !! cls box)) (raw_detections results)).
Proof.
  split.
  - intros (r & w' & H).
    apply detect_objects_Return in H as (m & img & results & dets & -> & Hdec & Hpred & Hloop & _).
    apply for_results_Return in Hloop as (all & Hall & _).
    exists m, img, results. repeat (split; [done |]).
    apply named_boxes_records. eauto.
  - intros (m & img & results & -> & Hdec & Hpred & Hnames).
    by eapply detect_objects_succeeds.
Qed.

(** X3: a box whose class the vocabulary does not name fails the whole
    request: the answer is the 500 error made from the [KeyError] of the
    first such box, whatever was collected before it is dropped, and the
    error is logged after the decode and the inference. *)
Theorem unnamed_class_fails_request
    (m : @Model Image) (image : list byte) (w : World)
    (img : Image) (results : list Results) (pre post : list Box) (box : Box) :
  cv2_imdecode image = Return (Some img) ->
  predict m img 0.5%float = Return results ->
  raw_detections results = pre ++ box :: post ->
  Forall (fun b => is_Some (names m !! cls b)) pre ->
  names m !! cls box = None ->
  detect_objects (Some m) image w =
    (Raise (HTTPException 500 (str (KeyError (cls box)))),
     mkWorld (wall w) (S (reads w))
       (trace w ++ [EvImdecode image; EvInference;
                    EvLogError (DetectionError (KeyError (cls box)))])).
Proof.
  intros Hdec Hpred Hraw Hpre Hbox.
  rewrite detect_objects_loaded, Hdec, Hpred, for_results_flat, Hraw.
  by rewrite (for_boxes_unnamed m [] pre post box Hpre Hbox).
Qed.

(** X2: whatever [/detect] raises is an [HTTPException] with status 503 or
    500: it never answers with status 400, and no exception of OpenCV, of
    the model or of the vocabulary lookup leaves the handler as it is. *)
Theorem detect_raises_only_503_or_500
    (model : option (@Model Image)) (image : list byte) (w : World) (e : Exception) :
  result_of (detect_objects model image) w = Raise e ->
  exists (status_code : Z) (detail : string),
    e = HTTPException status_code detail /\
    (status_code = 503 \/ status_code = 500) /\
    (status_code = 503 <-> model = None).
Proof.
  intros H. pose proof H as H'.
  apply detect_objects_Raise in H' as [-> | [cause ->]].
  - exists 503, "YOLO model not loaded". repeat split; auto.
    intros _. destruct model as [m|]; [| done].
    unfold result_of in H. rewrite detect_objects_loaded in H.
    destruct (cv2_imdecode image) as [[img|]|e1]; simpl in H; try discriminate H.
    destruct (predict m img 0.5%float) as [results|e2]; simpl in H; try discriminate H.
    destruct (for_results (Some m) [] results); simpl in H; discriminate H.
  - exists 500, (str cause). repeat split; auto; [lia |].
    intros ->. discriminate H.
Qed.

(** *** What /detect does to the world *)

(** X4: [/detect] never changes the clock itself.  A success reads it twice
    and adds to the log the decode, the inference and one info record that
    carries the [count] and the [processing_time_ms] of the response.  A
    503 reads it once and logs nothing.  A 500 reads it once and logs the
    decode, the inference when the decode gave an image, and one error
    record that carries the exception the 500 was made from. *)
Theorem detect_effects
    (model : option (@Model Image)) (image : list byte) (w w' : World)
    (o : outcome DetectionResponse) :
  detect_objects model image w = (o, w') ->
  wall w' = wall w /\
  match o with
  | Return r =>
      reads w' = S (S (reads w)) /\
      trace w' = trace w ++
        [EvImdecode image; EvInference;
         EvLogInfo (DetectedObjects (count r) (processing_time_ms r))]
  | Raise e =>
      reads w' = S (reads w) /\
      ((model = None /\ trace w' = trace w) \/
       exists (cause : Exception) (steps : list event),
         e = HTTPException 500 (str cause) /\
         (steps = [] \/
          steps = [EvInference] /\ exists img, cv2_imdecode image = Return (Some img)) /\
         trace w' = trace w ++ EvImdecode image :: steps ++ [EvLogError (DetectionError cause)])
  end.
Proof.
  destruct model as [m|].
  - rewrite detect_objects_loaded. unfold world_after_error.
    destruct (cv2_imdecode image) as [[img|]|e1] eqn:Hdec.
    + destruct (predict m img 0.5%float) as [results|e2].
      * destruct (for_results (Some m) [] results) as [dets|e3];
          intros [= <- <-]; simpl; [done |].
        split; [done |]. split; [done |]. right. exists e3, [EvInference]. eauto 10.
      * intros [= <- <-]; simpl.
        split; [done |]. split; [done |]. right. exists e2, [EvInference]. eauto 10.
    + intros [= <- <-]; simpl. split; [done |]. split; [done |]. right.
      exists (HTTPException 400 "Invalid image"), []. eauto.
    + intros [= <- <-]; simpl. split; [done |]. split; [done |]. right.
      exists e1, []. eauto.
  - intros [= <- <-]. simpl. eauto.
Qed.

(** *** What a successful response holds *)

(** X5: every detection of a successful response is the record of a box the
    model emitted: its class name is the vocabulary's name of the box's
    class and passes the filter, and its confidence and bounding box are
    the box's, unchanged.  There are at most as many detections as boxes. *)
Theorem response_detections_come_from_boxes
    (m : @Model Image) (image : list byte) (w w' : World) (r : DetectionResponse)
    (img : Image) (results : list Results) :
  cv2_imdecode image = Return (Some img) ->
  predict m img 0.5%float = Return results ->
  detect_objects (Some m) image w = (Return r, w') ->
  Forall (fun d =>
            is_relevant (class_name d) = true /\
            exists box : Box,
              box ∈ raw_detections results /\
              names m !! cls box = Some (class_name d) /\
              confidence d = conf box /\
              bbox d = xyxy box)
         (detections r)
  /\ 0 <= count r <= len (raw_detections results).
Proof.
  intros Hdec Hpred H.
  apply detect_objects_Return in H
    as (m' & img' & results' & dets & [= <-] & Hdec' & Hpred' & Hloop & ->).
  rewrite Hdec in Hdec'. injection Hdec' as <-.
  rewrite Hpred in Hpred'. injection Hpred' as <-.
  apply for_results_Return in Hloop as (all & Hall & ->). simpl.
  split.
  - apply Forall_forall. intros d Hd. apply list_elem_of_filter in Hd as [Hrel Hd].
    split; [by apply Is_true_true |].
    apply list_elem_of_lookup in Hd as [i Hi].
    destruct (Forall2_lookup_r _ _ _ _ _ Hall Hi) as (box & Hbox & Hrec).
    exists box. split; [by eapply list_elem_of_lookup_2 |].
    unfold record_of in Hrec. destruct (names m !! cls box) as [name|]; [| discriminate Hrec].
    by injection Hrec as <-.
  - unfold len, kept. pose proof (length_filter (fun d => is_relevant (class_name d)) all).
    apply Forall2_length in Hall. lia.
Qed.

(** X6: every box the model emitted whose class name passes the filter is in a
    successful response, with its confidence and bounding box, however low
    the confidence is; and [count] is zero exactly when no emitted box has
    such a class. *)
Theorem response_holds_every_relevant_box
    (m : @Model Image) (image : list byte) (w w' : World) (r : DetectionResponse)
    (img : Image) (results : list Results) :
  cv2_imdecode image = Return (Some img) ->
  predict m img 0.5%float = Return results ->
  detect_objects (Some m) image w = (Return r, w') ->
  (forall (box : Box) (name : string),
      box ∈ raw_detections results ->
      names m !! cls box = Some name ->
      is_relevant name = true ->
      mkDetection name (conf box) (xyxy box) ∈ detections r)
  /\ (count r = 0 <->
      forall (box : Box) (name : string),
        box ∈ raw_detections results ->
        names m !! cls box = Some name ->
        is_relevant name = false).
Proof.
  intros Hdec Hpred H.
  apply detect_objects_Return in H
    as (m' & img' & results' & dets & [= <-] & Hdec' & Hpred' & Hloop & ->).
  rewrite Hdec in Hdec'. injection Hdec' as <-.
  rewrite Hpred in Hpred'. injection Hpred' as <-.
  apply for_results_Return in Hloop as (all & Hall & ->). simpl.
  assert (Hin : forall box name,
             box ∈ raw_detections results -> names m !! cls box = Some name ->
             mkDetection name (conf box) (xyxy box) ∈ all).
  { intros box name Hbox Hname. apply list_elem_of_lookup in Hbox as [i Hi].
    destruct (Forall2_lookup_l _ _ _ _ _ Hall Hi) as (d & Hd & Hrec).
    unfold record_of in Hrec. rewrite Hname in Hrec. injection Hrec as <-.
    by eapply list_elem_of_lookup_2. }
  split.
  - intros box name Hbox Hname Hrel. apply list_elem_of_filter.
    split; [by apply Is_true_true | by apply Hin].
  - unfold len, kept. split.
    + intros Hzero box name Hbox Hname. apply not_true_is_false. intros Hrel.
      assert (Hd : mkDetection name (conf box) (xyxy box)
                     ∈ filter (fun d => is_relevant (class_name d)) all)
        by (apply list_elem_of_filter; split; [by apply Is_true_true | by apply Hin]).
      destruct (filter _ all); [by apply elem_of_nil in Hd | simpl in Hzero; lia].
    + intros Hnone.
      destruct (filter (fun d => is_relevant (class_name d)) all) as [|d rest] eqn:Hf;
        [done |].
      assert (Hd : d ∈ filter (fun d => is_relevant (class_name d)) all)
        by (rewrite Hf; left).
      apply list_elem_of_filter in Hd as [Hrel Hd]. apply Is_true_true in Hrel.
      apply list_elem_of_lookup in Hd as [i Hi].
      destruct (Forall2_lookup_r _ _ _ _ _ Hall Hi) as (box & Hbox & Hrec).
      unfold record_of in Hrec.
      destruct (names m !! cls box) as [name|] eqn:Hname; [| discriminate Hrec].
      injection Hrec as <-. simpl in Hrel.
      rewrite (Hnone box name) in Hrel; [discriminate Hrel | | done].
      by eapply list_elem_of_lookup_2.
Qed.

(** X7: which detections [/detect] returns, how many, and whether and how it
    fails, depends on the model and the upload alone: in two worlds (two
    clocks, two histories) the two answers differ at most in
    [processing_time_ms]. *)
Theorem detect_answer_ignores_world
    (model : option (@Model Image)) (image : list byte) (w1 w2 : World) :
  match result_of (detect_objects model image) w1,
        result_of (detect_objects model image) w2 with
  | Return r1, Return r2 => detections r1 = detections r2 /\ count r1 = count r2
  | Raise e1, Raise e2 => e1 = e2
  | _, _ => False
  end.
Proof.
  unfold result_of. destruct model as [m|]; [| done].
  rewrite !detect_objects_loaded.
  destruct (cv2_imdecode image) as [[img|]|e1]; simpl; try done.
  destruct (predict m img 0.5%float) as [results|e2]; simpl; try done.
  by destruct (for_results (Some m) [] results).
Qed.

(** *** The elapsed time of a successful response *)

(** X8: with finite clock readings the [processing_time_ms] of a successful
    response is a number, never a NaN, and it is exactly zero when the two
    readings are equal. *)
Theorem processing_time_is_a_number
    (model : option (@Model Image)) (image : list byte) (w w' : World)
    (r : DetectionResponse) :
  detect_objects model image w = (Return r, w') ->
  PrimFloat.is_finite (wall w (reads w)) = true ->
  PrimFloat.is_finite (wall w (S (reads w))) = true ->
  PrimFloat.is_nan (processing_time_ms r) = false
  /\ (wall w (S (reads w)) = wall w (reads w) -> processing_time_ms r = 0%float).
Proof.
  intros H Hf0 Hf1.
  apply detect_objects_Return in H as (m & img & results & dets & _ & _ & _ & _ & ->).
  simpl. unfold elapsed_ms. split.
  - by apply Binary64OrderFacts.float_elapsed_number.
  - intros ->. by apply Binary64OrderFacts.float_elapsed_zero.
Qed.

(** X9: when the second clock reading of a successful request is not later
    than the first, both being finite, [processing_time_ms] is zero or
    negative. *)
Theorem processing_time_not_positive_when_clock_not_advanced
    (model : option (@Model Image)) (image : list byte) (w w' : World)
    (r : DetectionResponse) :
  detect_objects model image w = (Return r, w') ->
  PrimFloat.is_finite (wall w (reads w)) = true ->
  PrimFloat.is_finite (wall w (S (reads w))) = true ->
  PrimFloat.leb (wall w (S (reads w))) (wall w (reads w)) = true ->
  PrimFloat.leb (processing_time_ms r) 0%float = true.
Proof.
  intros H Hf0 Hf1 Hle.
  apply detect_objects_Return in H as (m & img & results & dets & _ & _ & _ & _ & ->).
  simpl. unfold elapsed_ms. by apply Binary64OrderFacts.float_elapsed_nonpos.
Qed.

(** *** Requests in a row *)

Lemma detect_frame (model : option (@Model Image)) (image : list byte) (w : World) :
  wall (snd (detect_objects model image w)) = wall w /\
  (reads w <= reads (snd (detect_objects model image w)) <= reads w + 2)%nat /\
  trace w `prefix_of` trace (snd (detect_objects model image w)).
Proof.
  destruct model as [m|].
  - rewrite detect_objects_loaded. unfold world_after_error.
    destruct (cv2_imdecode image) as [[img|]|e1]; simpl;
      [| repeat split; [lia | lia | by eexists] ..].
    destruct (predict m img 0.5%float) as [results|e2]; simpl;
      [| repeat split; [lia | lia | by eexists]].
    destruct (for_results (Some m) [] results); simpl;
      repeat split; (lia || by eexists).
  - simpl. repeat split; (lia || done).
Qed.

Lemma app_frame (model : option (@Model Image)) (req : Request) (w : World) :
  wall (snd (app model req w)) = wall w /\
  (reads w <= reads (snd (app model req w)) <= reads w + 2)%nat /\
  (reads_clock req = false -> reads (snd (app model req w)) = reads w) /\
  trace w `prefix_of` trace (snd (app model req w)).
Proof.
  assert (Hsame : wall w = wall w /\ (reads w <= reads w <= reads w + 2)%nat /\
                  (reads_clock req = false -> reads w = reads w) /\
                  trace w `prefix_of` trace w)
    by (repeat split; (lia || done)).
  destruct req as [| |image|request|session|]; simpl; try exact Hsame.
  - unfold fmap, IO_fmap.
    pose proof (detect_frame model image w) as (Hwall & Hreads & Htrace).
    destruct (detect_objects model image w) as [[r|e] w']; simpl in *; done.
  - repeat split; [lia | lia | by eexists].
Qed.

(** X12: serving any run of requests leaves the clock function as it was,
    reads the clock at most twice per request and not at all for requests
    other than [/detect], and only ever appends to the log. *)
Theorem serve_frame (model : option (@Model Image)) (reqs : list Request) (w : World) :
  wall (snd (serve model reqs w)) = wall w /\
  (reads w <= reads (snd (serve model reqs w)) <= reads w + 2 * length reqs)%nat /\
  (forallb (fun req => negb (reads_clock req)) reqs = true ->
   reads (snd (serve model reqs w)) = reads w) /\
  trace w `prefix_of` trace (snd (serve model reqs w)).
Proof.
  revert w. induction reqs as [|req reqs IH]; intros w; simpl.
  - repeat split; [lia | lia | done].
  - pose proof (app_frame model req w) as (Hw & Hr & Hn & Ht).
    destruct (app model req w) as [o w1]. simpl in *.
    specialize (IH w1) as (IHw & IHr & IHn & IHt).
    destruct (serve model reqs w1) as [os w2]. simpl in *.
    split; [congruence |]. split; [lia |]. split.
    + intros Hall. apply andb_prop in Hall as [Hreq Hall].
      rewrite IHn, Hn; [done | by destruct (reads_clock req) | done].
    + by etrans.
Qed.

Lemma detect_same_clock
    (model : option (@Model Image)) (image : list byte) (w1 w2 : World) :
  same_clock w1 w2 ->
  fst (detect_objects model image w1) = fst (detect_objects model image w2) /\
  same_clock (snd (detect_objects model image w1)) (snd (detect_objects model image w2)).
Proof.
  intros [Hwall Hreads]. destruct model as [m|].
  - rewrite !detect_objects_loaded. unfold world_after_error, elapsed_ms, same_clock.
    rewrite Hwall, Hreads.
    destruct (cv2_imdecode image) as [[img|]|e1]; simpl; try done.
    destruct (predict m img 0.5%float) as [results|e2]; simpl; try done.
    by destruct (for_results (Some m) [] results).
  - unfold same_clock. simpl. by rewrite Hwall, Hreads.
Qed.

Lemma app_same_clock (model : option (@Model Image)) (req : Request) (w1 w2 : World) :
  same_clock w1 w2 ->
  fst (app model req w1) = fst (app model req w2) /\
  same_clock (snd (app model req w1)) (snd (app model req w2)).
Proof.
  intros Hw. destruct req as [| |image|request|session|]; simpl; try done.
  unfold fmap, IO_fmap.
  destruct (detect_same_clock model image w1 w2 Hw) as [Ho Hw'].
  destruct (detect_objects model image w1) as [o1 w1'],
           (detect_objects model image w2) as [o2 w2']. simpl in *. subst o2.
  by destruct o1.
Qed.

Lemma serve_same_clock (model : option (@Model Image)) (reqs : list Request) (w1 w2 : World) :
  same_clock w1 w2 -> fst (serve model reqs w1) = fst (serve model reqs w2).
Proof.
  revert w1 w2. induction reqs as [|req reqs IH]; intros w1 w2 Hw; simpl; [done |].
  destruct (app_same_clock model req w1 w2 Hw) as [Ho Hw'].
  destruct (app model req w1) as [o1 w1'], (app model req w2) as [o2 w2']. simpl in *.
  specialize (IH w1' w2' Hw').
  destruct (serve model reqs w1') as [os1 ?], (serve model reqs w2') as [os2 ?].
  simpl in *. congruence.
Qed.

Lemma app_quiet (model : option (@Model Image)) (req : Request) (w : World) :
  reads_clock req = false -> same_clock (snd (app model req w)) w.
Proof. by destruct req. Qed.

(** X13: a request other than [/detect] leaves no mark on the answers that
    follow it: with it or without it in a run, every other request of the
    run gets the same answer.  In particular a session posted to
    [/sessions] changes nothing that any endpoint answers afterwards. *)
Theorem quiet_request_leaves_no_mark
    (model : option (@Model Image)) (before after : list Request) (req : Request)
    (w : World) :
  reads_clock req = false ->
  exists (earlier later : list (outcome json)) (o : outcome json),
    length earlier = length before /\
    length later = length after /\
    fst (serve model (before ++ after) w) = earlier ++ later /\
    fst (serve model (before ++ req :: after) w) = earlier ++ o :: later.
Proof.
  intros Hquiet.
  exists (fst (serve model before w)),
         (fst (serve model after (snd (serve model before w)))),
         (fst (app model req (snd (serve model before w)))).
  split; [apply serve_length |]. split; [apply serve_length |].
  rewrite !serve_app. simpl. split; [done |]. f_equal.
  pose proof (app_quiet model req (snd (serve model before w)) Hquiet) as Hw.
  destruct (app model req (snd (serve model before w))) as [o w1]. simpl in *.
  pose proof (serve_same_clock model after w1 _ Hw) as Hafter.
  destruct (serve model after w1) as [os ?]. simpl in *. by rewrite Hafter.
Qed.

(** *** Health as a readiness probe *)

(** X14: [/health] reports [model_loaded] false, with a null [model_type],
    exactly when [/detect] answers 503; [/] reports the same
    [model_loaded] as [/health]. *)
Theorem health_tells_whether_detect_is_available
    (model : option (@Model Image)) (image : list byte) (w w0 : World) :
  (result_of (detect_objects model image) w
     = Raise (HTTPException 503 "YOLO model not loaded")
   <->
   result_of (health_check model) w0
     = Return (JDict [
         ("status", JStr "healthy");
         ("model_loaded", JBool false);
         ("model_type", JNull)]))
  /\ exists (loaded : bool) (model_type : json),
       result_of (health_check model) w0
         = Return (JDict [
             ("status", JStr "healthy");
             ("model_loaded", JBool loaded);
             ("model_type", model_type)]) /\
       result_of (root model) w0
         = Return (JDict [
             ("status", JStr "healthy");
             ("service", JStr "Healthcare AR Training API");
             ("version", JStr "1.0.0");
             ("model_loaded", JBool loaded);
             ("endpoints",
               JList [JStr "/detect"; JStr "/ai-coach"; JStr "/sessions"; JStr "/health"])]) /\
       (loaded = true <-> model_type = JStr "YOLOv8n").
Proof.
  destruct model as [m|].
  - split.
    + split; [| discriminate]. intros H. exfalso.
      unfold result_of in H. rewrite detect_objects_loaded in H.
      destruct (cv2_imdecode image) as [[img|]|e1]; simpl in H; try discriminate H.
      destruct (predict m img 0.5%float) as [results|e2]; simpl in H; try discriminate H.
      destruct (for_results (Some m) [] results); simpl in H; discriminate H.
    + exists true, (JStr "YOLOv8n"). by repeat split.
  - split; [done |]. exists false, JNull. repeat split; discriminate.
Qed.

(** *** The feedback table, read backwards *)

(** X15: the fallback sentence is given to unknown steps only, and two steps of
    the table never share a sentence: the feedback tells whether the step
    was recognised, and which one it was. *)
Theorem feedback_identifies_step
    (duration : float) (motion_type : string) (attempts : Z) :
  let known := ["hands_visible"; "wetting_motion"; "soap_application";
                "interlace_fingers"; "back_of_hands"; "thumbs"; "rinse_motion"] in
  (forall step : string,
      generate_feedback step duration motion_type attempts = "Keep up the good work!"
      <-> step ∉ known)
  /\ (forall step1 step2 : string,
        step1 ∈ known -> step2 ∈ known ->
        generate_feedback step1 duration motion_type attempts
          = generate_feedback step2 duration motion_type attempts ->
        step1 = step2).
Proof.
  intros known. split.
  - intros step. split.
    + intros H Hin. unfold known in Hin.
      repeat (apply elem_of_cons in Hin as [->|Hin]; [by vm_compute in H |]).
      by apply elem_of_nil in Hin.
    + intros Hout. unfold generate_feedback. by rewrite feedback_map_unknown.
  - intros step1 step2 H1 H2. unfold known in H1, H2.
    repeat (apply elem_of_cons in H1 as [->|H1];
            [ repeat (apply elem_of_cons in H2 as [->|H2];
                      [ intros H; first [reflexivity | by vm_compute in H] |]);
              by apply elem_of_nil in H2 |]).
    by apply elem_of_nil in H1.
Qed.

End Further.

(** ** The loader patch *)

Section TorchLoadFacts.

Context {PyObj Loaded : Type}.
Variable PyFalse : PyObj.
Variable _original_load : list PyObj -> gmap string PyObj -> Loaded.


End TorchLoadFacts.

(** ** The further properties in the concrete environment *)

(** X10 on a bottle inside a longer class name. *)
Lemma is_relevant_extends_witness :
  is_relevant "bottle" = true
  /\ is_relevant ("wine " +:+ "bottle" +:+ " rack") = true.
Proof.
  assert (H : is_relevant "bottle" = true) by reflexivity.
  split; [exact H |].
  exact (is_relevant_extends "bottle" "wine " " rack" H).
Defined.

(** X11 on a class name of two characters. *)
Lemma is_relevant_needs_three_characters_witness :
  (String.length "tv" < 3)%nat /\ is_relevant "tv" = false.
Proof.
  assert (H : (String.length "tv" < 3)%nat) by (simpl; lia).
  split; [exact H |].
  exact (is_relevant_needs_three_characters "tv" H).
Defined.

(** X3 on [dark_picture]: a bottle, then class 99. *)
Lemma unnamed_class_fails_request_witness :
  Demo.imdecode DemoMore.dark_picture = Return (Some [x00; x10])
  /\ predict Demo.yolo [x00; x10] 0.5%float = Return DemoMore.dark_results
  /\ names Demo.yolo !! cls Demo.unnamed_box = None
  /\ detect_objects Demo.imdecode Demo.str (Some Demo.yolo) DemoMore.dark_picture
       Demo.steady_world
     = (Raise (HTTPException 500 "99"),
        mkWorld Demo.steady_clock 1
          [EvImdecode DemoMore.dark_picture; EvInference;
           EvLogError (DetectionError (KeyError 99))]).
Proof.
  assert (Hdec : Demo.imdecode DemoMore.dark_picture = Return (Some [x00; x10]))
    by reflexivity.
  assert (Hpred : predict Demo.yolo [x00; x10] 0.5%float = Return DemoMore.dark_results)
    by reflexivity.
  assert (Hbox : names Demo.yolo !! cls Demo.unnamed_box = None)
    by (vm_compute; reflexivity).
  assert (Hpre : Forall (fun b => is_Some (names Demo.yolo !! cls b)) [Demo.bottle_box]).
  { constructor; [| constructor]. exists "bottle". vm_compute; reflexivity. }
  repeat (split; [assumption |]).
  exact (unnamed_class_fails_request Demo.imdecode Demo.str Demo.yolo
           DemoMore.dark_picture Demo.steady_world [x00; x10] DemoMore.dark_results
           [Demo.bottle_box] [] Demo.unnamed_box Hdec Hpred eq_refl Hpre Hbox).
Defined.

(** X2 on the text file. *)
Lemma detect_raises_only_503_or_500_witness :
  result_of (detect_objects Demo.imdecode Demo.str (Some Demo.yolo) Demo.text_file)
    Demo.steady_world
  = Raise (HTTPException 500 "400: Invalid image")
  /\ exists (status_code : Z) (detail : string),
       HTTPException 500 "400: Invalid image" = HTTPException status_code detail /\
       (status_code = 503 \/ status_code = 500) /\
       (status_code = 503 <-> Some Demo.yolo = None).
Proof.
  assert (H : result_of
                (detect_objects Demo.imdecode Demo.str (Some Demo.yolo) Demo.text_file)
                Demo.steady_world
              = Raise (HTTPException 500 "400: Invalid image"))
    by (vm_compute; reflexivity).
  split; [exact H |].
  exact (detect_raises_only_503_or_500 Demo.imdecode Demo.str _ _ _ _ H).
Defined.

(** X4 on [picture] under the steady clock. *)
Lemma detect_effects_witness :
  detect_objects Demo.imdecode Demo.str (Some Demo.yolo) Demo.picture Demo.steady_world
  = (Return Demo.picture_response, Demo.picture_world)
  /\ reads Demo.picture_world = 2%nat
  /\ trace Demo.picture_world
     = [EvImdecode Demo.picture; EvInference;
        EvLogInfo (DetectedObjects (count Demo.picture_response)
                     (processing_time_ms Demo.picture_response))].
Proof.
  assert (H : detect_objects Demo.imdecode Demo.str (Some Demo.yolo) Demo.picture
                Demo.steady_world
              = (Return Demo.picture_response, Demo.picture_world))
    by (vm_compute; reflexivity).
  split; [exact H |].
  exact (proj2 (detect_effects Demo.imdecode Demo.str _ _ _ _ _ H)).
Defined.

(** X5 on [picture]: two detections out of four boxes. *)
Lemma response_detections_come_from_boxes_witness :
  Demo.imdecode Demo.picture = Return (Some [x01; x02; x03])
  /\ predict Demo.yolo [x01; x02; x03] 0.5%float = Return DemoMore.picture_results
  /\ detect_objects Demo.imdecode Demo.str (Some Demo.yolo) Demo.picture Demo.steady_world
     = (Return Demo.picture_response, Demo.picture_world)
  /\ 0 <= count Demo.picture_response <= len (raw_detections DemoMore.picture_results).
Proof.
  assert (Hdec : Demo.imdecode Demo.picture = Return (Some [x01; x02; x03]))
    by reflexivity.
  assert (Hpred : predict Demo.yolo [x01; x02; x03] 0.5%float
                  = Return DemoMore.picture_results) by reflexivity.
  assert (H : detect_objects Demo.imdecode Demo.str (Some Demo.yolo) Demo.picture
                Demo.steady_world
              = (Return Demo.picture_response, Demo.picture_world))
    by (vm_compute; reflexivity).
  repeat (split; [assumption |]).
  exact (proj2 (response_detections_come_from_boxes Demo.imdecode Demo.str
                  _ _ _ _ _ _ _ Hdec Hpred H)).
Defined.

(** X6 on the handbag of [picture]. *)
Lemma response_holds_every_relevant_box_witness :
  Demo.imdecode Demo.picture = Return (Some [x01; x02; x03])
  /\ predict Demo.yolo [x01; x02; x03] 0.5%float = Return DemoMore.picture_results
  /\ detect_objects Demo.imdecode Demo.str (Some Demo.yolo) Demo.picture Demo.steady_world
     = (Return Demo.picture_response, Demo.picture_world)
  /\ Demo.handbag_detection ∈ detections Demo.picture_response.
Proof.
  assert (Hdec : Demo.imdecode Demo.picture = Return (Some [x01; x02; x03]))
    by reflexivity.
  assert (Hpred : predict Demo.yolo [x01; x02; x03] 0.5%float
                  = Return DemoMore.picture_results) by reflexivity.
  assert (H : detect_objects Demo.imdecode Demo.str (Some Demo.yolo) Demo.picture
                Demo.steady_world
              = (Return Demo.picture_response, Demo.picture_world))
    by (vm_compute; reflexivity).
  repeat (split; [assumption |]).
  apply (proj1 (response_holds_every_relevant_box Demo.imdecode Demo.str
                  _ _ _ _ _ _ _ Hdec Hpred H) Demo.handbag_box "handbag").
  - vm_compute. do 3 right. left.
  - vm_compute; reflexivity.
  - reflexivity.
Defined.

(** X8 on [picture] under the steady clock. *)
Lemma processing_time_is_a_number_witness :
  detect_objects Demo.imdecode Demo.str (Some Demo.yolo) Demo.picture Demo.steady_world
  = (Return Demo.picture_response, Demo.picture_world)
  /\ PrimFloat.is_finite (wall Demo.steady_world (reads Demo.steady_world)) = true
  /\ PrimFloat.is_finite (wall Demo.steady_world (S (reads Demo.steady_world))) = true
  /\ PrimFloat.is_nan (processing_time_ms Demo.picture_response) = false.
Proof.
  assert (H : detect_objects Demo.imdecode Demo.str (Some Demo.yolo) Demo.picture
                Demo.steady_world
              = (Return Demo.picture_response, Demo.picture_world))
    by (vm_compute; reflexivity).
  assert (Hf0 : PrimFloat.is_finite (wall Demo.steady_world (reads Demo.steady_world)) = true)
    by (vm_compute; reflexivity).
  assert (Hf1 : PrimFloat.is_finite (wall Demo.steady_world (S (reads Demo.steady_world)))
                = true) by (vm_compute; reflexivity).
  repeat (split; [assumption |]).
  exact (proj1 (processing_time_is_a_number Demo.imdecode Demo.str _ _ _ _ _ H Hf0 Hf1)).
Defined.

(** X9 on [picture] with the clock set back. *)
Lemma processing_time_not_positive_when_clock_not_advanced_witness :
  detect_objects Demo.imdecode Demo.str (Some Demo.yolo) Demo.picture Demo.world_set_back
  = (Return DemoMore.set_back_response, DemoMore.set_back_world)
  /\ PrimFloat.leb (wall Demo.world_set_back (S (reads Demo.world_set_back)))
       (wall Demo.world_set_back (reads Demo.world_set_back)) = true
  /\ PrimFloat.leb (processing_time_ms DemoMore.set_back_response) 0%float = true.
Proof.
  assert (H : detect_objects Demo.imdecode Demo.str (Some Demo.yolo) Demo.picture
                Demo.world_set_back
              = (Return DemoMore.set_back_response, DemoMore.set_back_world))
    by (vm_compute; reflexivity).
  assert (Hle : PrimFloat.leb (wall Demo.world_set_back (S (reads Demo.world_set_back)))
                  (wall Demo.world_set_back (reads Demo.world_set_back)) = true)
    by (vm_compute; reflexivity).
  repeat (split; [assumption |]).
  apply (processing_time_not_positive_when_clock_not_advanced Demo.imdecode Demo.str
           _ _ _ _ _ H); [vm_compute; reflexivity | vm_compute; reflexivity | exact Hle].
Defined.

(** X13 on a session posted between a health check and a detection. *)
Lemma quiet_request_leaves_no_mark_witness :
  reads_clock (POST_sessions Demo.odd_session) = false
  /\ exists (earlier later : list (outcome json)) (o : outcome json),
       length earlier = length [GET_health] /\
       length later = length [POST_detect Demo.picture; GET_analytics] /\
       fst (serve Demo.imdecode Demo.str (Some Demo.yolo)
              ([GET_health] ++ [POST_detect Demo.picture; GET_analytics])
              Demo.steady_world) = earlier ++ later /\
       fst (serve Demo.imdecode Demo.str (Some Demo.yolo)
              ([GET_health] ++ POST_sessions Demo.odd_session
                 :: [POST_detect Demo.picture; GET_analytics])
              Demo.steady_world) = earlier ++ o :: later.
Proof.
  assert (H : reads_clock (POST_sessions Demo.odd_session) = false) by reflexivity.
  split; [exact H |].
  exact (quiet_request_leaves_no_mark Demo.imdecode Demo.str (Some Demo.yolo)
           [GET_health] [POST_detect Demo.picture; GET_analytics]
           (POST_sessions Demo.odd_session) Demo.steady_world H).
Defined.
